(** * Restaurant-Data: the location / fetch / cuisine-filter pipeline

    A shallow embedding of [Restaurant-Data.py], a Streamlit script that
    geocodes a free-text location, fetches the restaurants around it,
    derives a set of cuisine labels and filters the records by the label
    selected in the page.

    Python values that come out of [response.json()] are modelled by the
    type [pyval]; Python exceptions by the error monad [result]; the
    Streamlit session state, the outbound requests and the messages shown
    in the page by a small state-and-trace monad [script]. *)

From Stdlib Require Import ZArith String Ascii List Bool Lia.
From Stdlib Require Import Floats.PrimFloat Floats.SpecFloat Floats.FloatOps.
From stdpp Require Import gmap strings sorting.
Import ListNotations.

Local Open Scope string_scope.
Local Open Scope list_scope.

(** ** Python [str]

    A [str] is modelled by a Rocq [string] whose characters are the code
    points below 256.  The methods below follow CPython on that range. *)

Module Str.

(** [c.isspace()]: tab, line feed, vertical tab, form feed, carriage
    return, the four separators 0x1c-0x1f, space, NEL and the no-break
    space. *)
Definition is_space (c : ascii) : bool :=
  let n := N_of_ascii c in
  ((9 <=? n) && (n <=? 13) || (28 <=? n) && (n <=? 32)
   || (n =? 133) || (n =? 160))%N.

(** [c.lower()] on one character: A-Z and the Latin-1 capitals (0xc0-0xde
    without the multiplication sign 0xd7) move up by 32. *)
Definition lower_char (c : ascii) : ascii :=
  let n := N_of_ascii c in
  if ((65 <=? n) && (n <=? 90)
      || (192 <=? n) && (n <=? 222) && negb (n =? 215))%N
  then ascii_of_N (n + 32) else c.

(** [s.lower()] *)
Fixpoint lower (s : string) : string :=
  match s with
  | EmptyString => EmptyString
  | String c s' => String (lower_char c) (lower s')
  end.

(** [s.replace(a, b)] for one-character [a] and [b]. *)
Fixpoint replace (a b : ascii) (s : string) : string :=
  match s with
  | EmptyString => EmptyString
  | String c s' => String (if Ascii.eqb c a then b else c) (replace a b s')
  end.

(** [s.split(sep)] for a one-character separator; the result is never
    empty ([''.split(',')] is [['']]). *)
Fixpoint split (sep : ascii) (s : string) : list string :=
  match s with
  | EmptyString => [EmptyString]
  | String c s' =>
      if Ascii.eqb c sep then EmptyString :: split sep s'
      else match split sep s' with
           | [] => [String c EmptyString]
           | p :: ps => String c p :: ps
           end
  end.

(** [s.lstrip()], [s.rstrip()], [s.strip()] *)
Fixpoint lstrip (s : string) : string :=
  match s with
  | EmptyString => EmptyString
  | String c s' => if is_space c then lstrip s' else s
  end.

Fixpoint rstrip (s : string) : string :=
  match s with
  | EmptyString => EmptyString
  | String c s' =>
      match rstrip s' with
      | EmptyString => if is_space c then EmptyString else String c EmptyString
      | r => String c r
      end
  end.

Definition strip (s : string) : string := rstrip (lstrip s).

(** [hay.startswith(needle)] *)
Fixpoint starts_with (needle hay : string) : bool :=
  match needle, hay with
  | EmptyString, _ => true
  | String _ _, EmptyString => false
  | String a needle', String b hay' => Ascii.eqb a b && starts_with needle' hay'
  end.

(** [needle in hay] for two strings: [needle] starts at some position of
    [hay]. *)
Fixpoint contains (needle hay : string) : bool :=
  starts_with needle hay
  || match hay with
     | EmptyString => false
     | String _ hay' => contains needle hay'
     end.

(** [sep.join(parts)] on a list of strings. *)
Fixpoint join (sep : string) (parts : list string) : string :=
  match parts with
  | [] => EmptyString
  | [p] => p
  | p :: ps => p ++ sep ++ join sep ps
  end.

(** Truth value of a string: non-empty. *)
Definition truthy (s : string) : bool :=
  match s with EmptyString => false | _ => true end.

End Str.

(** ** Python values and exceptions *)

#[local] Set Warnings "-register-all".

(** What [json.loads] can return.  A [dict] is the list of its items in
    insertion order; JSON objects have string keys. *)
Inductive pyval : Type :=
| PyNone
| PyBool (b : bool)
| PyInt (n : Z)
| PyFloat (f : float)
| PyStr (s : string)
| PyList (items : list pyval)
| PyDict (items : list (string * pyval)).

(** The exceptions the script can meet.  [ConnectionError] stands for any
    [requests.RequestException]. *)
Inductive exn : Type :=
| ConnectionError
| JSONDecodeError
| AttributeError
| TypeError
| KeyError
| IndexError
| ValueError
| OverflowError.

Inductive result (A : Type) : Type :=
| Ok (a : A)
| Raise (e : exn).

Arguments Ok {A} a.
Arguments Raise {A} e.

Definition result_bind {A B : Type} (m : result A) (k : A -> result B)
  : result B :=
  match m with
  | Ok a => k a
  | Raise e => Raise e
  end.

Notation "'let?' x ':=' m 'in' k" := (result_bind m (fun x => k))
  (at level 10, x name, m at level 100, k at level 200,
   format "'[v' 'let?'  x  ':='  m  'in' '/' k ']'").

(** [bool(v)] *)
Definition truthy (v : pyval) : bool :=
  match v with
  | PyNone => false
  | PyBool b => b
  | PyInt n => negb (n =? 0)%Z
  | PyFloat f => negb (f =? 0)%float
  | PyStr s => Str.truthy s
  | PyList items => match items with [] => false | _ => true end
  | PyDict items => match items with [] => false | _ => true end
  end.

(** Lookup of a key among the items of a [dict]. *)
Fixpoint lookup_key (k : string) (items : list (string * pyval))
  : option pyval :=
  match items with
  | [] => None
  | (k', v) :: rest => if String.eqb k k' then Some v else lookup_key k rest
  end.

(** [v.get(k, default)]: only a [dict] has the method. *)
Definition py_get (v : pyval) (k : string) (default : pyval) : result pyval :=
  match v with
  | PyDict items =>
      match lookup_key k items with
      | Some x => Ok x
      | None => Ok default
      end
  | _ => Raise AttributeError
  end.

(** [v[k]] for a string key. *)
Definition py_getitem (v : pyval) (k : string) : result pyval :=
  match v with
  | PyDict items =>
      match lookup_key k items with
      | Some x => Ok x
      | None => Raise KeyError
      end
  | _ => Raise TypeError
  end.

(** [v[0]] *)
Definition py_first (v : pyval) : result pyval :=
  match v with
  | PyList items =>
      match items with
      | x :: _ => Ok x
      | [] => Raise IndexError
      end
  | PyStr s =>
      match s with
      | String c _ => Ok (PyStr (String c EmptyString))
      | EmptyString => Raise IndexError
      end
  | PyDict _ => Raise KeyError
  | _ => Raise TypeError
  end.

(** The characters of a string, each as a one-character string. *)
Fixpoint chars (s : string) : list pyval :=
  match s with
  | EmptyString => []
  | String c s' => PyStr (String c EmptyString) :: chars s'
  end.

(** The items a [for] loop over [v] visits. *)
Definition py_iter (v : pyval) : result (list pyval) :=
  match v with
  | PyList items => Ok items
  | PyDict items => Ok (map (fun kv => PyStr (fst kv)) items)
  | PyStr s => Ok (chars s)
  | _ => Raise TypeError
  end.

(** [sep.join(items)]: every item must be a [str]. *)
Fixpoint py_strings (items : list pyval) : result (list string) :=
  match items with
  | [] => Ok []
  | PyStr s :: rest => let? ss := py_strings rest in Ok (s :: ss)
  | _ :: _ => Raise TypeError
  end.

Definition py_join (sep : string) (items : list pyval) : result string :=
  let? ss := py_strings items in Ok (Str.join sep ss).

(** The receiver of a [str] method such as [replace] or [lower]. *)
Definition py_str (v : pyval) : result string :=
  match v with
  | PyStr s => Ok s
  | _ => Raise AttributeError
  end.

(** [float(n)] for an [int]: rounded to the nearest double, ties to even;
    too large a magnitude raises. *)
Definition float_of_int (n : Z) : result float :=
  match binary_normalize prec emax n 0 false with
  | S754_infinity _ => Raise OverflowError
  | sf => Ok (SF2Prim sf)
  end.

(** ** Records and session state *)

(** The dict built for each restaurant, keys [name], [lat], [lon],
    [address], [cuisine]. *)
Record restaurant : Type := {
  r_name : pyval;
  r_lat : pyval;
  r_lon : pyval;
  r_address : string;
  r_cuisine : pyval
}.

(** [st.session_state] *)
Record session_state : Type := {
  location_name : string;
  lat : float;
  lon : float;
  zoom : Z;
  restaurants : list restaurant
}.

(** The state of a fresh session: 47.6062 and -122.3321 as doubles. *)
Definition initial_state : session_state := {|
  location_name := "Seattle, Washington, USA";
  lat := 0x1.7cd97f62b6ae8p+5%float;
  lon := (-0x1.e9541205bc01ap+6)%float;
  zoom := 12;
  restaurants := []
|}.

(** ** The network and the page *)

(** What a request comes back with: the call raises, or a response with a
    status code whose [json()] gives a value or raises. *)
Inductive http_outcome : Type :=
| TransportFailure
| Response (status_code : Z) (json : option pyval).

Definition response_json (body : option pyval) : result pyval :=
  match body with
  | Some v => Ok v
  | None => Raise JSONDecodeError
  end.

(** The two services, as seen during one run of the script: Nominatim
    answers a query, Overpass a radius and a point. *)
Record network : Type := {
  nominatim : string -> http_outcome;
  overpass : Z -> float -> float -> http_outcome
}.

(** What a run does besides changing the session state. *)
Inductive effect : Type :=
| HttpGet (query : string)
| HttpPost (radius : Z) (lat lon : float)
| StWarning (msg : string)
| StError (e : exn).

(** The widget values of one run.  [selected_cuisine] is what
    [st.selectbox] returns. *)
Record widgets : Type := {
  user_input : string;
  submitted : bool;
  selected_cuisine : string
}.

(** A piece of the script: it reads and writes the session state, leaves
    a trace of effects, and ends with a value or an uncaught exception. *)
Definition script (A : Type) : Type :=
  session_state -> result A * session_state * list effect.

(** Sequencing: the state is threaded, the traces are appended, and an
    exception ends the run with the state and the trace reached. *)
Definition ret {A : Type} (a : A) : script A :=
  fun st => (Ok a, st, []).

Definition bind {A B : Type} (m : script A) (k : A -> script B) : script B :=
  fun st =>
    match m st with
    | (Ok a, st1, t1) =>
        match k a st1 with
        | (r, st2, t2) => (r, st2, t1 ++ t2)
        end
    | (Raise e, st1, t1) => (Raise e, st1, t1)
    end.

Notation "'let*' x ':=' m 'in' k" := (bind m (fun x => k))
  (at level 10, x name, m at level 100, k at level 200,
   format "'[v' 'let*'  x  ':='  m  'in' '/' k ']'").
Notation "m ';;' k" := (bind m (fun _ => k))
  (at level 100, right associativity).

(** A computation without effects, one effect, and the reads and writes
    of the session state. *)
Definition lift {A : Type} (r : result A) : script A :=
  fun st => (r, st, []).

Definition emit (e : effect) : script unit :=
  fun st => (Ok tt, st, [e]).

Definition get : script session_state :=
  fun st => (Ok st, st, []).

Definition set_lat (x : float) : script unit :=
  fun st => (Ok tt, {| location_name := location_name st; lat := x;
                       lon := lon st; zoom := zoom st;
                       restaurants := restaurants st |}, []).

Definition set_lon (x : float) : script unit :=
  fun st => (Ok tt, {| location_name := location_name st; lat := lat st;
                       lon := x; zoom := zoom st;
                       restaurants := restaurants st |}, []).

Definition set_location_name (x : string) : script unit :=
  fun st => (Ok tt, {| location_name := x; lat := lat st;
                       lon := lon st; zoom := zoom st;
                       restaurants := restaurants st |}, []).

Definition set_restaurants (x : list restaurant) : script unit :=
  fun st => (Ok tt, {| location_name := location_name st; lat := lat st;
                       lon := lon st; zoom := zoom st;
                       restaurants := x |}, []).

(** ** The functions of the script *)

Section Pipeline.

(** [float(s)] for a [str]: the builtin's reading of a decimal literal;
    [None] stands for its [ValueError]. *)
Variable str_to_float : string -> option float.

(** [float(v)] *)
Definition py_float (v : pyval) : result float :=
  match v with
  | PyFloat f => Ok f
  | PyInt n => float_of_int n
  | PyBool b => Ok (if b then 1%float else 0%float)
  | PyStr s =>
      match str_to_float s with
      | Some f => Ok f
      | None => Raise ValueError
      end
  | _ => Raise TypeError
  end.

(** The body of [geocode_location] after the request: [None] is the pair
    [(None, None)]. *)
Definition geocode_response (geo_res : http_outcome)
  : result (option (float * float)) :=
  match geo_res with
  | TransportFailure => Raise ConnectionError
  | Response status_code body =>
      if (status_code =? 200)%Z then
        let? geo_data := response_json body in
        if truthy geo_data then
          let? first := py_first geo_data in
          let? lat_s := py_getitem first "lat" in
          let? lat := py_float lat_s in
          let? first' := py_first geo_data in
          let? lon_s := py_getitem first' "lon" in
          let? lon := py_float lon_s in
          Ok (Some (lat, lon))
        else Ok None
      else Ok None
  end.

Definition geocode_location (net : network) (query : string)
  : script (option (float * float)) :=
  emit (HttpGet query) ;;
  lift (geocode_response (nominatim net query)).

(** One round of the [for element in ...] loop: the record appended. *)
Definition normalize_element (element : pyval) : result restaurant :=
  let? tags := py_get element "tags" (PyDict []) in
  let? name := py_get tags "name" (PyStr "Unnamed") in
  let? cuisine_raw := py_get tags "cuisine" (PyStr "Unknown cuisine") in
  let? lat_r := py_get element "lat" PyNone in
  let? lon_r := py_get element "lon" PyNone in
  let? street := py_get tags "addr:street" (PyStr "") in
  let? housenumber := py_get tags "addr:housenumber" (PyStr "") in
  let? city := py_get tags "addr:city" (PyStr "") in
  let? postcode := py_get tags "addr:postcode" (PyStr "") in
  let? address :=
    py_join ", " (List.filter truthy [housenumber; street; city; postcode]) in
  Ok {| r_name := name; r_lat := lat_r; r_lon := lon_r;
        r_address := address; r_cuisine := cuisine_raw |}.

(** The loop, with the list [restaurants] built so far. *)
Fixpoint normalize_loop (elements : list pyval) (restaurants : list restaurant)
  : result (list restaurant) :=
  match elements with
  | [] => Ok restaurants
  | element :: rest =>
      let? r := normalize_element element in
      normalize_loop rest (restaurants ++ [r])
  end.

(** The [try] block of [fetch_nearby_restaurants]. *)
Definition fetch_body (response : http_outcome) : result (list restaurant) :=
  match response with
  | TransportFailure => Raise ConnectionError
  | Response _ body =>
      let? data := response_json body in
      let? elements := py_get data "elements" (PyList []) in
      let? items := py_iter elements in
      normalize_loop items []
  end.

(** [fetch_nearby_restaurants(lat, lon, radius)]: [except Exception]
    reports the error and returns the empty list. *)
Definition fetch_nearby_restaurants (net : network) (lat lon : float)
    (radius : Z) : script (list restaurant) :=
  emit (HttpPost radius lat lon) ;;
  match fetch_body (overpass net radius lat lon) with
  | Ok restaurants => ret restaurants
  | Raise e => emit (StError e) ;; ret []
  end.

Definition default_radius : Z := 7500.

(** The test [if lat and lon] on what [geocode_location] returned. *)
Definition lat_and_lon (r : option (float * float)) : bool :=
  match r with
  | Some (lat, lon) => truthy (PyFloat lat) && truthy (PyFloat lon)
  | None => false
  end.

(** Lines 80-95: update the location and fetch on submit, else fetch when
    the session holds no restaurants. *)
Definition update_location (net : network) (w : widgets) : script unit :=
  if submitted w && Str.truthy (user_input w) then
    let* r := geocode_location net (user_input w) in
    match r with
    | Some (lat, lon) =>
        if lat_and_lon r then
          set_lat lat ;;
          set_lon lon ;;
          set_location_name (user_input w) ;;
          let* found := fetch_nearby_restaurants net lat lon default_radius in
          set_restaurants found
        else
          emit (StWarning "Location not found. Keeping previous location.")
    | None =>
        emit (StWarning "Location not found. Keeping previous location.")
    end
  else
    let* st := get in
    if negb (match restaurants st with [] => false | _ => true end) then
      let* found :=
        fetch_nearby_restaurants net (lat st) (lon st) default_radius in
      set_restaurants found
    else ret tt.

(** The parts of one raw cuisine field. *)
Definition cuisine_parts (raw_cuisine : string) : list string :=
  map Str.strip (Str.split "," (Str.replace ";" "," raw_cuisine)).

(** The inner loop [for c in parts]. *)
Fixpoint add_parts (parts : list string) (cuisines : gset string)
  : gset string :=
  match parts with
  | [] => cuisines
  | c :: rest =>
      add_parts rest
        (if Str.truthy c
            && negb (String.eqb (Str.lower c) "unknown cuisine")
         then {[ c ]} ∪ cuisines else cuisines)
  end.

(** The outer loop [for r in st.session_state.restaurants]. *)
Fixpoint cuisine_loop (rs : list restaurant) (cuisines : gset string)
  : result (gset string) :=
  match rs with
  | [] => Ok cuisines
  | r :: rest =>
      let? raw_cuisine := py_str (r_cuisine r) in
      cuisine_loop rest (add_parts (cuisine_parts raw_cuisine) cuisines)
  end.

Definition extract_cuisines (rs : list restaurant) : result (gset string) :=
  cuisine_loop rs ∅.

(** The condition of the list comprehension. *)
Definition cuisine_matches (selected_cuisine : string) (r : restaurant)
  : result bool :=
  let? raw := py_str (r_cuisine r) in
  Ok (Str.contains (Str.lower selected_cuisine) (Str.lower raw)).

(** The list comprehension, with the list built so far. *)
Fixpoint comprehension (selected_cuisine : string) (rs : list restaurant)
    (kept : list restaurant) : result (list restaurant) :=
  match rs with
  | [] => Ok kept
  | r :: rest =>
      let? b := cuisine_matches selected_cuisine r in
      comprehension selected_cuisine rest (if b then kept ++ [r] else kept)
  end.

(** Lines 117-122. *)
Definition filter_restaurants (selected_cuisine : string)
    (rs : list restaurant) : result (list restaurant) :=
  if negb (String.eqb selected_cuisine "All cuisines") then
    comprehension selected_cuisine rs []
  else Ok rs.

(** Lines 101-122: the cuisine labels of the session's records, the
    warning when there are none, and the records kept for the map. *)
Definition filter_by_cuisine (w : widgets) : script (list restaurant) :=
  let* st := get in
  let* cuisines := lift (extract_cuisines (restaurants st)) in
  (if decide (cuisines = ∅)
   then emit (StWarning "No cuisine types found in the current data.")
   else ret tt) ;;
  lift (filter_restaurants (selected_cuisine w) (restaurants st)).

(** One run of the script, up to the records handed to the map. *)
Definition run (net : network) (w : widgets) : script (list restaurant) :=
  update_location net w ;;
  filter_by_cuisine w.

End Pipeline.

(** ** Plain decimal literals

    [short_decimal] reads [[-]digits[.digits]] with at most fifteen
    digits: numerator and power of ten are then integers a double holds
    exactly, and their quotient, rounded once, is the double [float()]
    returns for that literal.  It serves to run the script on concrete
    responses; any other string is outside its range. *)

Definition digit_value (c : ascii) : option Z :=
  let n := Z.of_N (N_of_ascii c) in
  if ((48 <=? n) && (n <=? 57))%Z then Some (n - 48)%Z else None.

(** Digits up to an optional point: the number read so far, and how many
    digits followed the point ([None] before it). *)
Fixpoint read_digits (s : string) (acc : Z) (frac : option nat)
  : option (Z * nat) :=
  match s with
  | EmptyString =>
      match frac with
      | Some k => Some (acc, k)
      | None => Some (acc, 0%nat)
      end
  | String c s' =>
      if Ascii.eqb c "."%char then
        match frac, s' with
        | None, String _ _ => read_digits s' acc (Some 0%nat)
        | _, _ => None
        end
      else
        match digit_value c with
        | Some d =>
            read_digits s' (10 * acc + d)%Z
              (match frac with Some k => Some (S k) | None => None end)
        | None => None
        end
  end.

Definition exact_float (n : Z) : float :=
  SF2Prim (binary_normalize prec emax n 0 false).

Definition unsigned_decimal (s : string) : option float :=
  match s with
  | EmptyString => None
  | String c _ =>
      if Ascii.eqb c "."%char then None
      else
        match read_digits s 0 None with
        | Some (m, k) =>
            if (m <? 10 ^ 15)%Z && (k <=? 15)%nat
            then Some (exact_float m / exact_float (10 ^ Z.of_nat k))%float
            else None
        | None => None
        end
  end.

Definition short_decimal (s : string) : option float :=
  match s with
  | String "-"%char s' =>
      match unsigned_decimal s' with
      | Some f => Some (- f)%float
      | None => None
      end
  | _ => unsigned_decimal s
  end.

(** ** Vocabulary of the statements *)

(** [a] occurs in [b] as a contiguous block. *)
Definition is_substring (a b : string) : Prop :=
  exists pre post, b = (pre ++ a ++ post)%string.

(** The character [c] occurs in [s]. *)
Fixpoint occurs (c : ascii) (s : string) : bool :=
  match s with
  | EmptyString => false
  | String d s' => Ascii.eqb d c || occurs c s'
  end.

(** Strings of white space, and strings that begin or end with it. *)
Fixpoint all_space (s : string) : bool :=
  match s with
  | EmptyString => true
  | String c s' => Str.is_space c && all_space s'
  end.

Definition starts_with_space (s : string) : bool :=
  match s with
  | EmptyString => false
  | String c _ => Str.is_space c
  end.

Fixpoint ends_with_space (s : string) : bool :=
  match s with
  | EmptyString => false
  | String c EmptyString => Str.is_space c
  | String _ s' => ends_with_space s'
  end.

(** [isinstance(v, str)] *)
Definition is_str (v : pyval) : bool :=
  match v with PyStr _ => true | _ => false end.

(** The records of the data model: the raw cuisine field is a string. *)
Definition cuisine_is_str (r : restaurant) : bool := is_str (r_cuisine r).

(** [selection] is contained in the raw cuisine field of [r], letter case
    set aside. *)
Definition ci_match (selection : string) (r : restaurant) : Prop :=
  exists raw, r_cuisine r = PyStr raw
              /\ is_substring (Str.lower selection) (Str.lower raw).

(** The test of the filter on a record, [False] for a cuisine field
    that is no string. *)
Definition keeps (selection : string) (r : restaurant) : bool :=
  match r_cuisine r with
  | PyStr raw => Str.contains (Str.lower selection) (Str.lower raw)
  | _ => false
  end.

(** [c] is a label of the raw field: a part between separators, trimmed,
    that is neither empty nor the unknown-cuisine sentinel in any letter
    case. *)
Definition label_of (c raw : string) : Prop :=
  exists part,
    In part (Str.split "," (Str.replace ";" "," raw))
    /\ c = Str.strip part
    /\ c <> ""
    /\ Str.lower c <> "unknown cuisine".

(** The address tags, in the order of the joined address. *)
Definition address_keys : list string :=
  ["addr:housenumber"; "addr:street"; "addr:city"; "addr:postcode"].

(** The tags of a raw element: the items of its [tags] mapping, none when
    the element has no such key. *)
Definition element_tags (element : pyval) : list (string * pyval) :=
  match element with
  | PyDict items =>
      match lookup_key "tags" items with
      | Some (PyDict tags) => tags
      | _ => []
      end
  | _ => []
  end.

(** The tag of an element under a key, if it has one. *)
Definition tag (element : pyval) (k : string) : option pyval :=
  lookup_key k (element_tags element).

(** A raw element as the data model has it: a mapping whose [tags], when
    present, is a mapping with strings at the address keys it holds. *)
Definition well_formed (element : pyval) : bool :=
  match element with
  | PyDict items =>
      match lookup_key "tags" items with
      | None => true
      | Some (PyDict tags) =>
          forallb (fun k => match lookup_key k tags with
                            | Some v => is_str v
                            | None => true
                            end) address_keys
      | Some _ => false
      end
  | _ => false
  end.

(** An address field that is present and not empty. *)
Definition address_field (element : pyval) (k : string) : list string :=
  match tag element k with
  | Some (PyStr (String c s)) => [String c s]
  | _ => []
  end.

(** The address fields of an element that are present and not empty. *)
Definition present_fields (element : pyval) : list string :=
  flat_map (address_field element) address_keys.

(** The tag under a key, or a default string when it is missing. *)
Definition tag_or (element : pyval) (k : string) (default : string) : pyval :=
  match tag element k with
  | Some v => v
  | None => PyStr default
  end.

(** The value found by a lookup, or a default. *)
Definition get_or (default : pyval) (o : option pyval) : pyval :=
  match o with
  | Some v => v
  | None => default
  end.

(** The value an element holds under a key, [None] when it has none. *)
Definition element_field (element : pyval) (k : string) : pyval :=
  match element with
  | PyDict items => get_or PyNone (lookup_key k items)
  | _ => PyNone
  end.

(** [isinstance(v, float)] *)
Definition is_float (v : pyval) : bool :=
  match v with PyFloat _ => true | _ => false end.

(** What [fetch_nearby_restaurants] returns and what it reports. *)
Definition fetched (response : http_outcome) : list restaurant :=
  match fetch_body response with
  | Ok rs => rs
  | Raise _ => []
  end.

(** The error message of the fetch, if any. *)
Definition fetch_report (response : http_outcome) : list effect :=
  match fetch_body response with
  | Ok _ => []
  | Raise e => [StError e]
  end.

(** The two warnings of the script. *)
Definition not_found_warning : effect :=
  StWarning "Location not found. Keeping previous location.".

(** The session state with its records replaced. *)
Definition with_restaurants (st : session_state) (rs : list restaurant)
  : session_state :=
  {| location_name := location_name st; lat := lat st; lon := lon st;
     zoom := zoom st; restaurants := rs |}.

(** The test [if submitted and user_input]. *)
Definition is_submission (w : widgets) : bool :=
  submitted w && Str.truthy (user_input w).

(** The three parts of what a piece of script leaves behind. *)
Definition outcome {A : Type} (x : result A * session_state * list effect)
  : result A := fst (fst x).

Definition final_state {A : Type}
    (x : result A * session_state * list effect) : session_state :=
  snd (fst x).

Definition trace {A : Type} (x : result A * session_state * list effect)
  : list effect := snd x.

(** The requests to Overpass in a trace. *)
Definition is_post (e : effect) : bool :=
  match e with HttpPost _ _ _ => true | _ => false end.

Definition posts (t : list effect) : list effect := List.filter is_post t.

Definition no_cuisine_warning : effect :=
  StWarning "No cuisine types found in the current data.".

(** ** Sample responses and sessions *)

(** A record whose raw cuisine field is "Pizzeria;regional". *)
Definition pizzeria (name lat lon : pyval) (address : string) : restaurant :=
  {| r_name := name; r_lat := lat; r_lon := lon; r_address := address;
     r_cuisine := PyStr "Pizzeria;regional" |}.

(** A node without coordinates, name, cuisine or address, and one with
    all of them. *)
Definition bare_element : pyval :=
  PyDict [("type", PyStr "node"); ("id", PyInt 4711);
          ("tags", PyDict [("amenity", PyStr "restaurant")])].

Definition full_element : pyval :=
  PyDict [("type", PyStr "node"); ("id", PyInt 4712);
          ("lat", PyFloat 47.5%float); ("lon", PyFloat (-122.25)%float);
          ("tags", PyDict [("addr:city", PyStr "Seattle");
                           ("addr:housenumber", PyStr "12");
                           ("addr:postcode", PyStr "");
                           ("cuisine", PyStr "Italian; Vegan");
                           ("name", PyStr "Da Mario")])].

(** An answer of Overpass without elements. *)
Definition empty_response : http_outcome :=
  Response 200 (Some (PyDict [("version", PyFloat 0.5%float);
                              ("elements", PyList [])])).

(** Answers of Nominatim: one candidate each, or none. *)
Definition seattle_reply : http_outcome :=
  Response 200
    (Some (PyList [PyDict [("place_id", PyInt 1);
                           ("lat", PyStr "47.6062");
                           ("lon", PyStr "-122.3321");
                           ("name", PyStr "Seattle")]])).

(** A place on the equator. *)
Definition equator_reply : http_outcome :=
  Response 200
    (Some (PyList [PyDict [("place_id", PyInt 2);
                           ("lat", PyStr "0.0");
                           ("lon", PyStr "-78.5");
                           ("name", PyStr "Mitad del Mundo")]])).

Definition no_candidates : http_outcome := Response 200 (Some (PyList [])).

(** An answer of Overpass with the two nodes above. *)
Definition two_restaurants : http_outcome :=
  Response 200
    (Some (PyDict [("version", PyFloat 0.5%float);
                   ("elements", PyList [full_element; bare_element])])).

(** Both services unreachable. *)
Definition net_down : network :=
  {| nominatim := fun _ => TransportFailure;
     overpass := fun _ _ _ => TransportFailure |}.

(** Nominatim knows two places; Overpass answers with two restaurants. *)
Definition net_up : network :=
  {| nominatim := fun q =>
       if String.eqb q "Mitad del Mundo" then equator_reply
       else if String.eqb q "Seattle" then seattle_reply
       else no_candidates;
     overpass := fun _ _ _ => two_restaurants |}.

(** Overpass is down while Nominatim answers. *)
Definition net_half : network :=
  {| nominatim := nominatim net_up;
     overpass := fun _ _ _ => TransportFailure |}.

(** The widgets of the first run and of a submission. *)
Definition first_load : widgets :=
  {| user_input := "Seattle, Washington, USA"; submitted := false;
     selected_cuisine := "All cuisines" |}.

Definition submit (q : string) : widgets :=
  {| user_input := q; submitted := true; selected_cuisine := "All cuisines" |}.

(** The records of the two nodes. *)
Definition da_mario : restaurant :=
  {| r_name := PyStr "Da Mario"; r_lat := PyFloat 47.5%float;
     r_lon := PyFloat (-122.25)%float; r_address := "12, Seattle";
     r_cuisine := PyStr "Italian; Vegan" |}.

Definition unnamed : restaurant :=
  {| r_name := PyStr "Unnamed"; r_lat := PyNone; r_lon := PyNone;
     r_address := ""; r_cuisine := PyStr "Unknown cuisine" |}.

(** The session after the first load with both services up. *)
Definition loaded : session_state :=
  with_restaurants initial_state [da_mario; unnamed].

(** ** The rest of the script *)

(** Lines 15-24: [if k not in st.session_state: st.session_state.k = v],
    on the session state as the mapping Streamlit keeps. *)
Definition setdefault (k : string) (v : pyval) (s : gmap string pyval)
  : gmap string pyval :=
  match s !! k with
  | Some _ => s
  | None => <[k := v]> s
  end.

Definition session_setup (s : gmap string pyval) : gmap string pyval :=
  let s1 := setdefault "location_name" (PyStr "Seattle, Washington, USA") s in
  let s2 := setdefault "lat" (PyFloat 0x1.7cd97f62b6ae8p+5%float) s1 in
  let s3 := setdefault "lon" (PyFloat (-0x1.e9541205bc01ap+6)%float) s2 in
  let s4 := setdefault "zoom" (PyInt 12) s3 in
  setdefault "restaurants" (PyList []) s4.

(** The defaults of the five keys. *)
Definition session_defaults : gmap string pyval :=
  <["location_name" := PyStr "Seattle, Washington, USA"]>
  (<["lat" := PyFloat 0x1.7cd97f62b6ae8p+5%float]>
  (<["lon" := PyFloat (-0x1.e9541205bc01ap+6)%float]>
  (<["zoom" := PyInt 12]>
  (<["restaurants" := PyList []]> ∅)))).

(** The order of [str]: by code point, a proper prefix first. *)
Definition str_le (a b : string) : Prop := String.leb a b = true.

#[global] Instance str_le_dec (a b : string) : Decision (str_le a b) :=
  decide (String.leb a b = true).

(** [sorted(l)] on strings: the ascending arrangement of [l]. *)
Definition py_sorted (l : list string) : list string := merge_sort str_le l.

(** Line 114: [["All cuisines"] + sorted(cuisines)]. *)
Definition cuisine_options (cuisines : gset string) : list string :=
  "All cuisines" :: py_sorted (elements cuisines).

(** The requests to Nominatim in a trace. *)
Definition is_get (e : effect) : bool :=
  match e with HttpGet _ => true | _ => false end.

Definition gets (t : list effect) : list effect := List.filter is_get t.


(** An element whose cuisine tag, when it has one, is a string. *)
Definition cuisine_tag_is_str (element : pyval) : bool :=
  match tag element "cuisine" with
  | Some v => is_str v
  | None => true
  end.

(** The session is never left with a zero coordinate. *)
Definition coordinates_nonzero (st : session_state) : bool :=
  truthy (PyFloat (lat st)) && truthy (PyFloat (lon st)).

(** The session after a sequence of runs, each with the network and the
    widget values of its moment; a run that ends in an exception leaves
    the session as it was when the exception was raised. *)
Fixpoint runs (str_to_float : string -> option float)
    (steps : list (network * widgets)) (st : session_state)
  : session_state :=
  match steps with
  | [] => st
  | (net, w) :: rest =>
      runs str_to_float rest (snd (fst (run str_to_float net w st)))
  end.

(** * Properties *)

Example short_decimal_seattle :
  short_decimal "47.6062" = Some (lat initial_state)
  /\ short_decimal "-122.3321" = Some (lon initial_state)
  /\ short_decimal "0.0" = Some 0%float
  /\ short_decimal "12" = Some 12%float
  /\ short_decimal "1e5" = None.
Proof. vm_compute. repeat split; reflexivity. Qed.

Example float_of_int_rounds :
  float_of_int 12 = Ok 12%float
  /\ float_of_int (2 ^ 53 + 1) = Ok 9007199254740992%float
  /\ float_of_int (2 ^ 1024) = Raise OverflowError
  /\ float_of_int (- 2 ^ 1024) = Raise OverflowError.
Proof. vm_compute. repeat split; reflexivity. Qed.

(** ** The string methods on examples *)

Example lower_mixed : Str.lower "Unknown Cuisine" = "unknown cuisine".
Proof. reflexivity. Qed.

Example split_three :
  Str.split "," (Str.replace ";" "," "Italian; Pizza, Vegan")
  = ["Italian"; " Pizza"; " Vegan"].
Proof. reflexivity. Qed.

Example split_empty : Str.split "," "" = [""].
Proof. reflexivity. Qed.

Example strip_both : Str.strip "  a b  " = "a b".
Proof. reflexivity. Qed.

Example contains_mid : Str.contains "zz" "pizza" = true.
Proof. reflexivity. Qed.

Example contains_empty : Str.contains "" "" = true.
Proof. reflexivity. Qed.

Example join_two : Str.join ", " ["12"; "Main St"] = "12, Main St".
Proof. reflexivity. Qed.

(** ** Facts about the string methods *)

Lemma append_cons (c : ascii) (a b : string) :
  (String c a ++ b)%string = String c (a ++ b)%string.
Proof. reflexivity. Qed.

Lemma append_empty (b : string) : ("" ++ b)%string = b.
Proof. reflexivity. Qed.

Lemma starts_with_iff (a b : string) :
  Str.starts_with a b = true <-> exists post, b = (a ++ post)%string.
Proof.
  revert b. induction a as [|c a IH]; intros b; simpl.
  - split; [intros _; now exists b | reflexivity].
  - destruct b as [|d b].
    + split; [discriminate | intros [post H]; discriminate].
    + rewrite andb_true_iff, IH, Ascii.eqb_eq. split.
      * intros [-> [post ->]]. now exists post.
      * intros [post H]. inversion H. split; [reflexivity | now exists post].
Qed.

Lemma contains_iff (a b : string) :
  Str.contains a b = true <-> is_substring a b.
Proof.
  unfold is_substring. induction b as [|d b IH]; simpl.
  - rewrite orb_false_r, starts_with_iff. split.
    + intros [post H]. now exists "", post.
    + intros [pre [post H]]. destruct pre; [now exists post | discriminate].
  - rewrite orb_true_iff, starts_with_iff, IH. split.
    + intros [[post H] | [pre [post H]]].
      * now exists "", post.
      * exists (String d pre), post. simpl. now rewrite H.
    + intros [pre [post H]]. destruct pre as [|e pre]; simpl in H.
      * left. now exists post.
      * right. inversion H. now exists pre, post.
Qed.

Lemma split_not_nil (sep : ascii) (s : string) : Str.split sep s <> [].
Proof.
  destruct s as [|c s]; simpl; [discriminate |].
  destruct (Ascii.eqb c sep); [discriminate |].
  destruct (Str.split sep s); discriminate.
Qed.

(** Joining the parts with the separator gives the string back. *)
Lemma join_split (sep : ascii) (s : string) :
  Str.join (String sep "") (Str.split sep s) = s.
Proof.
  induction s as [|c s IH]; simpl; [reflexivity |].
  destruct (Ascii.eqb_spec c sep) as [->|Hne].
  - pose proof (split_not_nil sep s) as Hnil.
    destruct (Str.split sep s) as [|p ps]; [contradiction |].
    simpl. now rewrite <- IH.
  - pose proof (split_not_nil sep s) as Hnil.
    destruct (Str.split sep s) as [|p ps]; [contradiction |].
    rewrite <- IH. destruct ps; reflexivity.
Qed.

(** No part holds the separator. *)
Lemma split_parts_free (sep : ascii) (s p : string) :
  In p (Str.split sep s) -> occurs sep p = false.
Proof.
  revert p. induction s as [|c s IH]; intros p; simpl.
  - intros [<- | []]. reflexivity.
  - destruct (Ascii.eqb_spec c sep) as [->|Hne].
    + intros [<- | H]; [reflexivity | now apply IH].
    + pose proof (split_not_nil sep s) as Hnil.
      destruct (Str.split sep s) as [|q qs]; [contradiction |].
      intros [<- | H].
      * simpl. rewrite (IH q (or_introl eq_refl)), orb_false_r.
        now apply Ascii.eqb_neq.
      * apply IH. now right.
Qed.

Lemma lstrip_spec (s : string) :
  exists l, s = (l ++ Str.lstrip s)%string /\ all_space l = true
            /\ starts_with_space (Str.lstrip s) = false.
Proof.
  induction s as [|c s (l & Hs & Hl & Hr)]; simpl.
  - now exists "".
  - destruct (Str.is_space c) eqn:Hc.
    + exists (String c l). rewrite append_cons, <- Hs. simpl. now rewrite Hc, Hl.
    + exists "". simpl. now rewrite Hc.
Qed.

Lemma rstrip_spec (s : string) :
  exists r, s = (Str.rstrip s ++ r)%string /\ all_space r = true
            /\ ends_with_space (Str.rstrip s) = false.
Proof.
  induction s as [|c s (r & Hs & Hr & He)]; simpl.
  - now exists "".
  - destruct (Str.rstrip s) as [|d t] eqn:Ht.
    + rewrite append_empty in Hs. subst r.
      destruct (Str.is_space c) eqn:Hc.
      * exists (String c s). rewrite append_empty. simpl.
        now rewrite Hc, Hr.
      * exists s. rewrite append_cons, append_empty. simpl.
        now rewrite Hc, Hr.
    + exists r. rewrite append_cons, <- Hs. now repeat split.
Qed.

Lemma rstrip_keeps_start (s : string) :
  starts_with_space s = false -> starts_with_space (Str.rstrip s) = false.
Proof.
  destruct s as [|c s]; simpl; [reflexivity |]. intros Hc.
  destruct (Str.rstrip s); [rewrite Hc |]; simpl; auto.
Qed.

(** [strip] removes a run of spaces at each end and nothing else. *)
Lemma strip_spec (s : string) :
  exists l r, s = (l ++ Str.strip s ++ r)%string
              /\ all_space l = true /\ all_space r = true
              /\ starts_with_space (Str.strip s) = false
              /\ ends_with_space (Str.strip s) = false.
Proof.
  unfold Str.strip.
  destruct (lstrip_spec s) as (l & Hs & Hl & Hstart).
  destruct (rstrip_spec (Str.lstrip s)) as (r & Hs' & Hr & Hend).
  exists l, r. repeat split; auto.
  - now rewrite <- Hs', <- Hs.
  - now apply rstrip_keeps_start.
Qed.

(** ** The cuisine filter *)

Lemma keeps_iff (selection : string) (r : restaurant) :
  keeps selection r = true <-> ci_match selection r.
Proof.
  unfold keeps, ci_match. destruct (r_cuisine r) as [| | | |raw| |];
    try (split; [discriminate | intros (raw' & H & _); discriminate]).
  rewrite contains_iff. split.
  - intros H. now exists raw.
  - intros (raw' & H & Hsub). now inversion H.
Qed.

Lemma comprehension_filter (selection : string) (rs kept : list restaurant) :
  forallb cuisine_is_str rs = true ->
  comprehension selection rs kept = Ok (kept ++ List.filter (keeps selection) rs).
Proof.
  revert kept. induction rs as [|r rs IH]; intros kept Hrs; simpl.
  - now rewrite app_nil_r.
  - simpl in Hrs. apply andb_true_iff in Hrs as [Hr Hrs].
    unfold cuisine_matches, keeps, cuisine_is_str in *.
    destruct (r_cuisine r); try discriminate. simpl.
    rewrite IH by assumption.
    destruct (Str.contains _ _); [now rewrite <- app_assoc | reflexivity].
Qed.

(** A record with a cuisine field that is no string stops the filter. *)
Lemma comprehension_raises (selection : string) (rs kept : list restaurant) :
  forallb cuisine_is_str rs = false ->
  comprehension selection rs kept = Raise AttributeError.
Proof.
  revert kept. induction rs as [|r rs IH]; intros kept Hrs; simpl in *.
  - discriminate.
  - unfold cuisine_matches, cuisine_is_str in *.
    destruct (r_cuisine r); simpl in *; try reflexivity. now apply IH.
Qed.

(** C3, as amended: for every sequence of records with string cuisine
    fields and every selection other than "All cuisines", the filter
    returns the records kept, in their order, by a test that holds exactly
    of the records whose raw cuisine field contains the selection as a
    case-insensitive substring; selecting "pizz" keeps a record whose raw
    cuisine field is "Pizzeria;regional". *)
Theorem filter_is_substring_subsequence
    (selection : string) (rs : list restaurant) :
  selection <> "All cuisines" ->
  forallb cuisine_is_str rs = true ->
  exists keep : restaurant -> bool,
    (forall r, keep r = true <-> ci_match selection r)
    /\ filter_restaurants selection rs = Ok (List.filter keep rs)
    /\ forall name lat lon address,
         filter_restaurants "pizz" [pizzeria name lat lon address]
         = Ok [pizzeria name lat lon address].
Proof.
  intros Hsel Hrs. exists (keeps selection). split; [| split].
  - intros r. apply keeps_iff.
  - unfold filter_restaurants.
    destruct (String.eqb_spec selection "All cuisines") as [E|_];
      [contradiction |].
    simpl. now rewrite comprehension_filter.
  - reflexivity.
Qed.

Lemma filter_is_substring_subsequence_witness :
  exists keep : restaurant -> bool,
    (forall r, keep r = true <-> ci_match "vegan" r)
    /\ filter_restaurants "vegan"
         [pizzeria PyNone PyNone PyNone "";
          {| r_name := PyStr "Green"; r_lat := PyNone; r_lon := PyNone;
             r_address := ""; r_cuisine := PyStr "Italian; Vegan" |}]
       = Ok (List.filter keep
         [pizzeria PyNone PyNone PyNone "";
          {| r_name := PyStr "Green"; r_lat := PyNone; r_lon := PyNone;
             r_address := ""; r_cuisine := PyStr "Italian; Vegan" |}])
    /\ forall name lat lon address,
         filter_restaurants "pizz" [pizzeria name lat lon address]
         = Ok [pizzeria name lat lon address].
Proof.
  apply (filter_is_substring_subsequence "vegan"); [discriminate | reflexivity].
Defined.

(** C3, as stated, fails on its example: "pizza" is no substring of
    "pizzeria;regional", so the record is left out. *)
Lemma pizza_misses_pizzeria :
  filter_restaurants "pizza" [pizzeria (PyStr "Da Mario") PyNone PyNone ""]
  = Ok []
  /\ ~ ci_match "pizza" (pizzeria (PyStr "Da Mario") PyNone PyNone "").
Proof.
  split; [reflexivity |].
  rewrite <- keeps_iff. discriminate.
Qed.

(** C4, as amended: with the selection "All cuisines" (capital A, compared
    by case) the filter returns its input, the same records in the same
    order, whatever the records are. *)
Theorem filter_all_cuisines (rs : list restaurant) :
  filter_restaurants "All cuisines" rs = Ok rs.
Proof. reflexivity. Qed.

(** C4, as stated, fails: the lower-case "all cuisines" is not the
    sentinel and goes through the substring test. *)
Lemma lower_case_sentinel_filters :
  filter_restaurants "all cuisines" [pizzeria (PyStr "Da Mario") PyNone PyNone ""]
  = Ok []
  /\ filter_restaurants "all cuisines"
       [pizzeria (PyStr "Da Mario") PyNone PyNone ""]
     <> Ok [pizzeria (PyStr "Da Mario") PyNone PyNone ""].
Proof. split; [reflexivity | discriminate]. Qed.

(** ** The cuisine labels *)

Lemma truthy_iff (s : string) : Str.truthy s = true <-> s <> "".
Proof. destruct s; simpl; split; congruence. Qed.

Lemma add_parts_elem (parts : list string) (cuisines : gset string)
    (c : string) :
  c ∈ add_parts parts cuisines
  <-> c ∈ cuisines
      \/ (In c parts /\ c <> "" /\ Str.lower c <> "unknown cuisine").
Proof.
  revert cuisines. induction parts as [|p parts IH]; intros cuisines; simpl.
  - tauto.
  - rewrite IH.
    destruct (Str.truthy p) eqn:Hp; simpl;
      [destruct (String.eqb_spec (Str.lower p) "unknown cuisine") as [E|E];
       simpl |].
    + split; [tauto |]. intros [H | [[-> | H] H']]; tauto.
    + apply truthy_iff in Hp. rewrite elem_of_union, elem_of_singleton.
      split.
      * intros [[-> | H] | H]; tauto.
      * intros [H | [[-> | H] H']]; tauto.
    + assert (p = "") as -> by (destruct p; [reflexivity | discriminate]).
      split; [tauto |]. intros [H | [[<- | H] H']]; tauto.
Qed.

Lemma cuisine_parts_label (c raw : string) :
  In c (cuisine_parts raw) /\ c <> "" /\ Str.lower c <> "unknown cuisine"
  <-> label_of c raw.
Proof.
  unfold cuisine_parts, label_of. rewrite in_map_iff. split.
  - intros [(part & <- & Hin) [H1 H2]]. now exists part.
  - intros (part & Hin & -> & H1 & H2). split; [now exists part | now split].
Qed.

Lemma cuisine_loop_elem (rs : list restaurant) (cuisines : gset string) :
  forallb cuisine_is_str rs = true ->
  exists labels,
    cuisine_loop rs cuisines = Ok labels
    /\ forall c, c ∈ labels
         <-> c ∈ cuisines
             \/ exists r raw, In r rs /\ r_cuisine r = PyStr raw
                              /\ label_of c raw.
Proof.
  revert cuisines. induction rs as [|r rs IH]; intros cuisines Hrs; simpl.
  - exists cuisines. split; [reflexivity |]. intros c. split; [tauto |].
    intros [H | (r & raw & [] & _)]. assumption.
  - simpl in Hrs. apply andb_true_iff in Hrs as [Hr Hrs].
    unfold cuisine_is_str in Hr.
    destruct (r_cuisine r) as [| | | |raw| |] eqn:Hraw; try discriminate.
    simpl.
    destruct (IH (add_parts (cuisine_parts raw) cuisines) Hrs)
      as (labels & Hloop & Hlabels).
    exists labels. split; [assumption |]. intros c.
    rewrite Hlabels, add_parts_elem, cuisine_parts_label. split.
    + intros [[H | H] | (r' & raw' & Hin & Hr' & Hl)].
      * now left.
      * right. exists r, raw. auto.
      * right. exists r', raw'. auto.
    + intros [H | (r' & raw' & [<- | Hin] & Hr' & Hl)].
      * left. now left.
      * left. right. rewrite Hraw in Hr'. now inversion Hr'.
      * right. exists r', raw'. auto.
Qed.

(** A record whose cuisine field is no string stops the extractor. *)
Lemma cuisine_loop_raises (rs : list restaurant) (cuisines : gset string) :
  forallb cuisine_is_str rs = false ->
  cuisine_loop rs cuisines = Raise AttributeError.
Proof.
  revert cuisines. induction rs as [|r rs IH]; intros cuisines Hrs;
    simpl in *.
  - discriminate.
  - unfold cuisine_is_str in *.
    destruct (r_cuisine r); simpl in *; try reflexivity. now apply IH.
Qed.

(** C5: on records with string cuisine fields the extractor returns the
    set of the labels of the raw fields (';' replaced by ',', split on
    ',', each part trimmed, empty parts and the unknown-cuisine sentinel
    in any letter case left out); the set holds neither the empty string
    nor a variant of the sentinel, and for one record with raw field
    "Italian; Pizza, Vegan" it is {"Italian", "Pizza", "Vegan"}. *)
Theorem extract_cuisines_labels (rs : list restaurant) :
  forallb cuisine_is_str rs = true ->
  exists labels : gset string,
    extract_cuisines rs = Ok labels
    /\ (forall c, c ∈ labels
          <-> exists r raw, In r rs /\ r_cuisine r = PyStr raw
                            /\ label_of c raw)
    /\ ("" ∉ labels)
    /\ (forall c, c ∈ labels -> Str.lower c <> "unknown cuisine")
    /\ forall name lat lon address,
         extract_cuisines
           [{| r_name := name; r_lat := lat; r_lon := lon;
               r_address := address;
               r_cuisine := PyStr "Italian; Pizza, Vegan" |}]
         = Ok {[ "Italian"; "Pizza"; "Vegan" ]}.
Proof.
  intros Hrs. unfold extract_cuisines.
  destruct (cuisine_loop_elem rs ∅ Hrs) as (labels & Hloop & Hlabels).
  assert (Hchar : forall c, c ∈ labels
            <-> exists r raw, In r rs /\ r_cuisine r = PyStr raw
                              /\ label_of c raw).
  { intros c. rewrite Hlabels. split; [| now right].
    intros [H | H]; [| assumption]. now apply not_elem_of_empty in H. }
  exists labels. split; [| split; [| split; [| split]]].
  - assumption.
  - assumption.
  - intros H. apply Hchar in H as (r & raw & _ & _ & part & _ & _ & Hne & _).
    now apply Hne.
  - intros c H. apply Hchar in H as (r & raw & _ & _ & part & _ & _ & _ & Hl).
    assumption.
  - intros name lat lon address. vm_compute. reflexivity.
Qed.

(** ** Normalization *)

(** On a [dict], [get] never raises. *)
Lemma py_get_dict (items : list (string * pyval)) (k : string)
    (default : pyval) :
  py_get (PyDict items) k default = Ok (get_or default (lookup_key k items)).
Proof. unfold py_get. now destruct (lookup_key k items). Qed.

Ltac case_address_tag tags k :=
  let H := fresh "H" in
  let s := fresh "s" in
  destruct (lookup_key k tags) as [[| | | |s| |]|] eqn:H;
  try discriminate; [destruct s|]; simpl.

(** C6: a well-formed raw element is normalized, without an exception,
    to a record whose name is the name tag or "Unnamed", whose cuisine is
    the cuisine tag or "Unknown cuisine", and whose address joins with
    ", " the house number, street, city and postcode that are present and
    not empty, in that order; it is the empty string when no address tag
    is present. *)
Theorem normalize_element_fields (element : pyval) :
  well_formed element = true ->
  exists r,
    normalize_element element = Ok r
    /\ r_name r = tag_or element "name" "Unnamed"
    /\ r_cuisine r = tag_or element "cuisine" "Unknown cuisine"
    /\ r_address r = Str.join ", " (present_fields element)
    /\ ((forall k, In k address_keys -> tag element k = None) ->
        r_address r = "").
Proof.
  unfold well_formed, normalize_element, present_fields, address_field,
    tag_or, tag, element_tags.
  destruct element as [| | | | | |items]; try discriminate.
  rewrite py_get_dict.
  destruct (lookup_key "tags" items) as [[| | | | | |tags]|];
    try discriminate;
    repeat (cbn [result_bind get_or]; rewrite py_get_dict);
    cbn [result_bind get_or].
  - intros Hwf. simpl in Hwf. rewrite !andb_true_iff in Hwf.
    destruct Hwf as (Hh & Hs & Hc & Hp & _). simpl.
    case_address_tag tags "addr:street";
      case_address_tag tags "addr:housenumber";
      case_address_tag tags "addr:city";
      case_address_tag tags "addr:postcode";
      (eexists; split; [reflexivity |]; simpl;
       split; [now destruct (lookup_key "name" tags) |];
       split; [now destruct (lookup_key "cuisine" tags) |];
       split; [reflexivity |];
       intros Hno; try reflexivity; exfalso;
       pose proof (Hno "addr:housenumber" ltac:(simpl; tauto));
       pose proof (Hno "addr:street" ltac:(simpl; tauto));
       pose proof (Hno "addr:city" ltac:(simpl; tauto));
       pose proof (Hno "addr:postcode" ltac:(simpl; tauto));
       congruence).
  - intros _. eexists. repeat split; reflexivity.
Qed.

Example normalize_full_element :
  normalize_element full_element
  = Ok {| r_name := PyStr "Da Mario"; r_lat := PyFloat 47.5%float;
          r_lon := PyFloat (-122.25)%float; r_address := "12, Seattle";
          r_cuisine := PyStr "Italian; Vegan" |}.
Proof. reflexivity. Qed.

Lemma normalize_element_fields_witness :
  well_formed bare_element = true
  /\ exists r,
       normalize_element bare_element = Ok r
       /\ r_name r = PyStr "Unnamed"
       /\ r_cuisine r = PyStr "Unknown cuisine"
       /\ r_address r = "".
Proof.
  split; [reflexivity |].
  destruct (normalize_element_fields bare_element eq_refl)
    as (r & Hr & Hname & Hcuisine & Haddress & _).
  exists r. repeat split; assumption.
Defined.

(** An element that is no mapping, a [tags] value that is no mapping or an
    address tag that is a number stops the loop with an exception. *)
Example normalize_ill_formed :
  normalize_element (PyStr "node") = Raise AttributeError
  /\ normalize_element (PyDict [("tags", PyNone)]) = Raise AttributeError
  /\ normalize_element (PyDict [("tags", PyDict [("addr:postcode", PyInt 98101)])])
     = Raise TypeError.
Proof. repeat split; reflexivity. Qed.

Lemma normalize_element_coordinates (element : pyval) (r : restaurant) :
  normalize_element element = Ok r ->
  r_lat r = element_field element "lat"
  /\ r_lon r = element_field element "lon".
Proof.
  unfold normalize_element, element_field.
  destruct element as [| | | | | |items]; try discriminate.
  rewrite py_get_dict. cbn [result_bind].
  destruct (py_get _ "name" _); [| discriminate]. cbn [result_bind].
  destruct (py_get _ "cuisine" _); [| discriminate]. cbn [result_bind].
  rewrite !py_get_dict. cbn [result_bind].
  destruct (py_get _ "addr:street" _); [| discriminate]. cbn [result_bind].
  destruct (py_get _ "addr:housenumber" _); [| discriminate].
  cbn [result_bind].
  destruct (py_get _ "addr:city" _); [| discriminate]. cbn [result_bind].
  destruct (py_get _ "addr:postcode" _); [| discriminate]. cbn [result_bind].
  destruct (py_join _ _); [| discriminate]. cbn [result_bind].
  intros H. inversion H. split; reflexivity.
Qed.

(** The loop appends one record per element, in the order of the
    elements. *)
Lemma normalize_loop_each (elements : list pyval)
    (done rs : list restaurant) :
  normalize_loop elements done = Ok rs ->
  exists new, rs = done ++ new
              /\ Forall2 (fun e r => normalize_element e = Ok r) elements new.
Proof.
  revert done. induction elements as [|e elements IH]; intros done; simpl.
  - intros H. inversion H. exists []. split; [now rewrite app_nil_r | constructor].
  - destruct (normalize_element e) as [r|] eqn:He; [| discriminate].
    simpl. intros H. apply IH in H as (new & -> & Hall).
    exists (r :: new). split; [now rewrite <- app_assoc | now constructor].
Qed.

(** C8, as amended: every record the loop produces carries in its
    latitude and longitude what the raw element holds under [lat] and
    [lon], [None] when the key is missing; they are floats for the
    elements whose [lat] and [lon] are floats. *)
Theorem normalize_loop_coordinates (elements : list pyval)
    (rs : list restaurant) :
  normalize_loop elements [] = Ok rs ->
  Forall2 (fun e r =>
             r_lat r = element_field e "lat"
             /\ r_lon r = element_field e "lon"
             /\ (is_float (element_field e "lat") = true ->
                 is_float (element_field e "lon") = true ->
                 is_float (r_lat r) = true /\ is_float (r_lon r) = true))
    elements rs.
Proof.
  intros H. apply normalize_loop_each in H as (new & -> & Hall). simpl.
  induction Hall as [|e r elements new He _ IH]; constructor; [| exact IH].
  apply normalize_element_coordinates in He as [-> ->]. auto.
Qed.

Lemma normalize_loop_coordinates_witness :
  normalize_loop [full_element; bare_element] []
  = Ok [{| r_name := PyStr "Da Mario"; r_lat := PyFloat 47.5%float;
           r_lon := PyFloat (-122.25)%float; r_address := "12, Seattle";
           r_cuisine := PyStr "Italian; Vegan" |};
        {| r_name := PyStr "Unnamed"; r_lat := PyNone; r_lon := PyNone;
           r_address := ""; r_cuisine := PyStr "Unknown cuisine" |}]
  /\ Forall2 (fun e r =>
             r_lat r = element_field e "lat"
             /\ r_lon r = element_field e "lon"
             /\ (is_float (element_field e "lat") = true ->
                 is_float (element_field e "lon") = true ->
                 is_float (r_lat r) = true /\ is_float (r_lon r) = true))
       [full_element; bare_element]
       [{| r_name := PyStr "Da Mario"; r_lat := PyFloat 47.5%float;
           r_lon := PyFloat (-122.25)%float; r_address := "12, Seattle";
           r_cuisine := PyStr "Italian; Vegan" |};
        {| r_name := PyStr "Unnamed"; r_lat := PyNone; r_lon := PyNone;
           r_address := ""; r_cuisine := PyStr "Unknown cuisine" |}].
Proof.
  split; [reflexivity |].
  apply (normalize_loop_coordinates [full_element; bare_element]).
  reflexivity.
Defined.

(** C8, as stated, fails: an element without [lat] and [lon] is
    normalized to a record whose latitude and longitude are [None]. *)
Lemma missing_coordinates_are_none :
  exists r,
    normalize_loop [bare_element] [] = Ok [r]
    /\ r_lat r = PyNone /\ r_lon r = PyNone
    /\ is_float (r_lat r) = false /\ is_float (r_lon r) = false.
Proof. eexists. repeat split; reflexivity. Qed.

(** ** The fetch *)

(** The fetch never raises and leaves the session state alone. *)
Lemma fetch_nearby_restaurants_total (net : network) (lat lon : float)
    (radius : Z) (st : session_state) :
  fetch_nearby_restaurants net lat lon radius st
  = (Ok (fetched (overpass net radius lat lon)), st,
     HttpPost radius lat lon :: fetch_report (overpass net radius lat lon)).
Proof.
  unfold fetch_nearby_restaurants, fetched, fetch_report, bind, emit, ret.
  now destruct (fetch_body _).
Qed.

Example fetch_body_failures :
  fetch_body TransportFailure = Raise ConnectionError
  /\ fetch_body (Response 200 None) = Raise JSONDecodeError
  /\ fetch_body (Response 200 (Some (PyList []))) = Raise AttributeError
  /\ fetch_body (Response 200 (Some (PyDict [("elements", PyNone)])))
     = Raise TypeError
  /\ fetch_body (Response 429 (Some (PyDict [("elements", PyList [PyInt 1])])))
     = Raise AttributeError
  /\ fetch_body empty_response = Ok []
  /\ fetch_body (Response 504 (Some (PyDict []))) = Ok [].
Proof. repeat split; reflexivity. Qed.

(** ** The submit handler and the run *)

Section Session.

Variable str_to_float : string -> option float.

(** A submission whose coordinates pass the test [if lat and lon]. *)
Lemma update_location_accepted (net : network) (w : widgets)
    (st : session_state) (la lo : float) :
  is_submission w = true ->
  geocode_response str_to_float (nominatim net (user_input w)) = Ok (Some (la, lo)) ->
  lat_and_lon (Some (la, lo)) = true ->
  update_location str_to_float net w st
  = (Ok tt,
     {| location_name := user_input w; lat := la; lon := lo;
        zoom := zoom st;
        restaurants := fetched (overpass net default_radius la lo) |},
     HttpGet (user_input w) :: HttpPost default_radius la lo
       :: fetch_report (overpass net default_radius la lo)).
Proof.
  intros Hsub Hgeo Htest. unfold update_location.
  unfold is_submission in Hsub. rewrite Hsub.
  unfold geocode_location, bind at 1, bind at 1, emit, lift.
  rewrite Hgeo, Htest.
  unfold bind, set_lat, set_lon, set_location_name, set_restaurants.
  rewrite fetch_nearby_restaurants_total. simpl.
  now rewrite app_nil_r.
Qed.

(** A submission whose geocode result does not pass the test. *)
Lemma update_location_rejected (net : network) (w : widgets)
    (st : session_state) (r : option (float * float)) :
  is_submission w = true ->
  geocode_response str_to_float (nominatim net (user_input w)) = Ok r ->
  lat_and_lon r = false ->
  update_location str_to_float net w st
  = (Ok tt, st, [HttpGet (user_input w); not_found_warning]).
Proof.
  intros Hsub Hgeo Htest. unfold update_location.
  unfold is_submission in Hsub. rewrite Hsub.
  unfold geocode_location, bind, emit, lift. rewrite Hgeo.
  destruct r as [[la lo]|]; [rewrite Htest |]; reflexivity.
Qed.

(** A submission whose geocode call raises. *)
Lemma update_location_raises (net : network) (w : widgets)
    (st : session_state) (e : exn) :
  is_submission w = true ->
  geocode_response str_to_float (nominatim net (user_input w)) = Raise e ->
  update_location str_to_float net w st = (Raise e, st, [HttpGet (user_input w)]).
Proof.
  intros Hsub Hgeo. unfold update_location.
  unfold is_submission in Hsub. rewrite Hsub.
  unfold geocode_location, bind, emit, lift. now rewrite Hgeo.
Qed.

(** No submission, and the session holds no restaurants. *)
Lemma update_location_refetch (net : network) (w : widgets)
    (st : session_state) :
  is_submission w = false ->
  restaurants st = [] ->
  update_location str_to_float net w st
  = (Ok tt,
     with_restaurants st
       (fetched (overpass net default_radius (lat st) (lon st))),
     HttpPost default_radius (lat st) (lon st)
       :: fetch_report (overpass net default_radius (lat st) (lon st))).
Proof.
  intros Hsub Hrs. unfold update_location.
  unfold is_submission in Hsub. rewrite Hsub.
  unfold bind, get, set_restaurants. rewrite Hrs. cbn [negb].
  rewrite fetch_nearby_restaurants_total. simpl. now rewrite app_nil_r.
Qed.

(** No submission, and the session holds restaurants. *)
Lemma update_location_idle (net : network) (w : widgets)
    (st : session_state) :
  is_submission w = false ->
  restaurants st <> [] ->
  update_location str_to_float net w st = (Ok tt, st, []).
Proof.
  intros Hsub Hrs. unfold update_location.
  unfold is_submission in Hsub. rewrite Hsub.
  unfold bind, get, ret. destruct (restaurants st); [contradiction |].
  reflexivity.
Qed.

(** The second half of the run reads the session state and sends no
    request. *)
Lemma filter_by_cuisine_quiet (w : widgets) (st : session_state) :
  final_state (filter_by_cuisine w st) = st
  /\ posts (trace (filter_by_cuisine w st)) = [].
Proof.
  unfold filter_by_cuisine, bind, get, lift, final_state, trace.
  destruct (extract_cuisines (restaurants st)) as [cuisines|e]; simpl;
    [| now split].
  destruct (decide (cuisines = ∅)); simpl; now split.
Qed.

Lemma filter_by_cuisine_empty (w : widgets) (st : session_state) :
  restaurants st = [] ->
  filter_by_cuisine w st = (Ok [], st, [no_cuisine_warning]).
Proof.
  intros Hrs. unfold filter_by_cuisine, bind, get, lift. rewrite Hrs.
  simpl. destruct (decide (∅ = ∅)) as [_|Hne]; [| contradiction].
  simpl. unfold filter_restaurants.
  now destruct (negb (String.eqb (selected_cuisine w) "All cuisines")).
Qed.

Lemma run_steps (net : network) (w : widgets) (st : session_state) :
  run str_to_float net w st
  = match update_location str_to_float net w st with
    | (Ok _, st1, t1) =>
        (outcome (filter_by_cuisine w st1),
         final_state (filter_by_cuisine w st1),
         t1 ++ trace (filter_by_cuisine w st1))
    | (Raise e, st1, t1) => (Raise e, st1, t1)
    end.
Proof.
  unfold run, bind, outcome, final_state, trace.
  destruct (update_location str_to_float net w st) as [[[u|e] st1] t1];
    [| reflexivity].
  now destruct (filter_by_cuisine w st1) as [[r st2] t2].
Qed.

Lemma posts_fetch_report (response : http_outcome) :
  posts (fetch_report response) = [].
Proof. unfold fetch_report. now destruct (fetch_body response). Qed.

Lemma with_restaurants_same (st : session_state) :
  restaurants st = [] -> with_restaurants st [] = st.
Proof. destruct st. simpl. now intros ->. Qed.

(** C7: when the request to Overpass fails in transport, its body is no
    JSON, or the [try] block raises anything else, the fetch catches the
    exception, reports it as an error in the page and returns the empty
    list, which is also what it returns for a response without elements;
    the run goes on with the empty record set and completes. *)
Theorem fetch_failure_caught (net : network) (la lo : float) (radius : Z)
    (e : exn) :
  fetch_body (overpass net radius la lo) = Raise e ->
  fetch_body TransportFailure = Raise ConnectionError
  /\ (forall code, fetch_body (Response code None) = Raise JSONDecodeError)
  /\ (forall st,
        fetch_nearby_restaurants net la lo radius st
        = (Ok [], st, [HttpPost radius la lo; StError e]))
  /\ (forall st net',
        overpass net' radius la lo = empty_response ->
        outcome (fetch_nearby_restaurants net' la lo radius st)
        = outcome (fetch_nearby_restaurants net la lo radius st))
  /\ (forall w st,
        is_submission w = false -> restaurants st = [] ->
        lat st = la -> lon st = lo -> radius = default_radius ->
        run str_to_float net w st
        = (Ok [], st,
           [HttpPost radius la lo; StError e; no_cuisine_warning]))
  /\ (forall w st,
        is_submission w = true ->
        geocode_response str_to_float (nominatim net (user_input w))
        = Ok (Some (la, lo)) ->
        lat_and_lon (Some (la, lo)) = true -> radius = default_radius ->
        run str_to_float net w st
        = (Ok [],
           {| location_name := user_input w; lat := la; lon := lo;
              zoom := zoom st; restaurants := [] |},
           [HttpGet (user_input w); HttpPost radius la lo; StError e;
            no_cuisine_warning])).
Proof.
  intros Hbody.
  assert (Hfetched : fetched (overpass net radius la lo) = [])
    by (unfold fetched; now rewrite Hbody).
  assert (Hreport : fetch_report (overpass net radius la lo) = [StError e])
    by (unfold fetch_report; now rewrite Hbody).
  split; [reflexivity |]. split; [reflexivity |]. split; [| split; [| split]].
  - intros st. now rewrite fetch_nearby_restaurants_total, Hfetched, Hreport.
  - intros st net' Hnet'. rewrite !fetch_nearby_restaurants_total.
    unfold outcome. simpl. rewrite Hfetched. unfold fetched.
    now rewrite Hnet'.
  - intros w st Hsub Hrs <- <- ->.
    rewrite run_steps, update_location_refetch by assumption.
    rewrite Hfetched, Hreport, with_restaurants_same by assumption.
    now rewrite filter_by_cuisine_empty.
  - intros w st Hsub Hgeo Htest ->.
    rewrite run_steps, (update_location_accepted net w st la lo)
      by assumption.
    rewrite Hfetched, Hreport. now rewrite filter_by_cuisine_empty.
Qed.

(** C9, as amended: when the session holds no records, as after a failed
    fetch, every run without a submission sends the request to Overpass
    again, once, at the session's coordinates, and stores what comes
    back; a run sends no such request when there is no submission and the
    session holds records, or when the submission's geocode result is
    turned down. *)
Theorem empty_session_refetches (net : network) (w : widgets)
    (st : session_state) :
  is_submission w = false ->
  (restaurants st = [] ->
   posts (trace (run str_to_float net w st))
   = [HttpPost default_radius (lat st) (lon st)]
   /\ final_state (run str_to_float net w st)
      = with_restaurants st
          (fetched (overpass net default_radius (lat st) (lon st))))
  /\ (restaurants st <> [] ->
      posts (trace (run str_to_float net w st)) = []
      /\ final_state (run str_to_float net w st) = st)
  /\ (forall w' r,
        is_submission w' = true ->
        geocode_response str_to_float (nominatim net (user_input w')) = Ok r ->
        lat_and_lon r = false ->
        posts (trace (run str_to_float net w' st)) = []
        /\ final_state (run str_to_float net w' st) = st).
Proof.
  intros Hsub. split; [| split].
  - intros Hrs. rewrite run_steps, update_location_refetch by assumption.
    destruct (filter_by_cuisine_quiet w
                (with_restaurants st
                   (fetched (overpass net default_radius (lat st) (lon st)))))
      as [Hst Hquiet].
    pose proof (posts_fetch_report
                  (overpass net default_radius (lat st) (lon st))) as Hrep.
    unfold trace, final_state, posts in *. simpl in *.
    rewrite List.filter_app, Hquiet, Hrep. split; [reflexivity | assumption].
  - intros Hrs. rewrite run_steps, update_location_idle by assumption.
    destruct (filter_by_cuisine_quiet w st) as [Hst Hquiet].
    unfold trace, final_state in *. simpl in *. now split.
  - intros w' r Hsub' Hgeo Htest.
    rewrite run_steps, (update_location_rejected net w' st r) by assumption.
    destruct (filter_by_cuisine_quiet w' st) as [Hst Hquiet].
    unfold trace, final_state, posts in *. simpl in *. now split.
Qed.

(** C10: when the geocoder succeeds and the latitude or the longitude it
    gives equals 0.0, the submit handler leaves location name,
    coordinates and records as they were and shows the location-not-found
    warning, which is what it does when the geocoder finds nothing. *)
Theorem zero_coordinate_rejected (net : network) (w : widgets)
    (st : session_state) (la lo : float) :
  is_submission w = true ->
  geocode_response str_to_float (nominatim net (user_input w))
  = Ok (Some (la, lo)) ->
  (la =? 0)%float = true \/ (lo =? 0)%float = true ->
  update_location str_to_float net w st
  = (Ok tt, st, [HttpGet (user_input w); not_found_warning])
  /\ (forall net',
        geocode_response str_to_float (nominatim net' (user_input w))
        = Ok None ->
        update_location str_to_float net' w st
        = update_location str_to_float net w st
        /\ run str_to_float net' w st = run str_to_float net w st).
Proof.
  intros Hsub Hgeo Hzero.
  assert (Htest : lat_and_lon (Some (la, lo)) = false).
  { simpl. destruct Hzero as [-> | ->]; [reflexivity | apply andb_false_r]. }
  assert (Hupd : update_location str_to_float net w st
                 = (Ok tt, st, [HttpGet (user_input w); not_found_warning]))
    by now apply (update_location_rejected net w st (Some (la, lo))).
  split; [assumption |]. intros net' Hgeo'.
  assert (Hupd' : update_location str_to_float net' w st
                  = update_location str_to_float net w st).
  { rewrite Hupd. now apply (update_location_rejected net' w st None). }
  split; [assumption |]. now rewrite !run_steps, Hupd'.
Qed.

(** C2, where the code departs from the claim: when the request to the
    geocoder fails in transport, [geocode_location] raises; the run stops
    there with the exception, the session state as it was, no request to
    Overpass and no warning shown. *)
Theorem geocode_transport_failure_uncaught (net : network) (w : widgets)
    (st : session_state) :
  is_submission w = true ->
  nominatim net (user_input w) = TransportFailure ->
  run str_to_float net w st
  = (Raise ConnectionError, st, [HttpGet (user_input w)]).
Proof.
  intros Hsub Hnet.
  rewrite run_steps, (update_location_raises net w st ConnectionError);
    [reflexivity | assumption |].
  now rewrite Hnet.
Qed.

(** The not-found cases the handler does treat: a status other than 200,
    or a body that is falsy, such as the empty list. *)
Lemma geocode_not_found_keeps_state (net : network) (w : widgets)
    (st : session_state) (code : Z) (body : option pyval) :
  is_submission w = true ->
  nominatim net (user_input w) = Response code body ->
  code <> 200%Z \/ (exists v, body = Some v /\ truthy v = false) ->
  update_location str_to_float net w st
  = (Ok tt, st, [HttpGet (user_input w); not_found_warning])
  /\ final_state (run str_to_float net w st) = st
  /\ posts (trace (run str_to_float net w st)) = [].
Proof.
  intros Hsub Hnet Hcase.
  assert (Hgeo : geocode_response str_to_float (nominatim net (user_input w))
                 = Ok None).
  { rewrite Hnet. simpl. destruct (Z.eqb_spec code 200) as [->|Hne].
    - destruct Hcase as [Hne | (v & -> & Hv)]; [contradiction |].
      simpl. now rewrite Hv.
    - reflexivity. }
  assert (Hupd : update_location str_to_float net w st
                 = (Ok tt, st, [HttpGet (user_input w); not_found_warning]))
    by now apply (update_location_rejected net w st None).
  split; [assumption |]. rewrite run_steps, Hupd.
  destruct (filter_by_cuisine_quiet w st) as [Hst Hquiet].
  unfold trace, final_state, posts in *. simpl in *. now split.
Qed.

(** The accepted case of a submission: coordinates, location name and
    records are replaced, the records by those of a fetch at the new
    coordinates. *)
Lemma accepted_submission_replaces_records (net : network) (w : widgets)
    (st : session_state) (la lo : float) :
  is_submission w = true ->
  geocode_response str_to_float (nominatim net (user_input w))
  = Ok (Some (la, lo)) ->
  (la =? 0)%float = false -> (lo =? 0)%float = false ->
  final_state (run str_to_float net w st)
  = {| location_name := user_input w; lat := la; lon := lo;
       zoom := zoom st;
       restaurants := fetched (overpass net default_radius la lo) |}
  /\ posts (trace (run str_to_float net w st))
     = [HttpPost default_radius la lo].
Proof.
  intros Hsub Hgeo Hla Hlo.
  assert (Htest : lat_and_lon (Some (la, lo)) = true)
    by (simpl; now rewrite Hla, Hlo).
  rewrite run_steps, (update_location_accepted net w st la lo) by assumption.
  match goal with
  | |- context [filter_by_cuisine w ?s] =>
      destruct (filter_by_cuisine_quiet w s) as [Hst Hquiet]
  end.
  pose proof (posts_fetch_report (overpass net default_radius la lo)) as Hrep.
  unfold trace, final_state, posts in *. simpl in *.
  rewrite List.filter_app, Hquiet, Hrep. split; [assumption | reflexivity].
Qed.

End Session.

(** ** The script on concrete sessions *)

Example first_load_fetches :
  run short_decimal net_up first_load initial_state
  = (Ok [da_mario; unnamed], loaded,
     [HttpPost 7500 (lat initial_state) (lon initial_state)]).
Proof. vm_compute. reflexivity. Qed.

Example submit_seattle :
  run short_decimal net_up (submit "Seattle") initial_state
  = (Ok [da_mario; unnamed],
     {| location_name := "Seattle"; lat := lat initial_state;
        lon := lon initial_state; zoom := 12;
        restaurants := [da_mario; unnamed] |},
     [HttpGet "Seattle";
      HttpPost 7500 (lat initial_state) (lon initial_state)]).
Proof. vm_compute. reflexivity. Qed.

(** C1, where the code departs from the claim: the geocoder succeeds for
    a place on the equator, with latitude 0.0, and the handler turns the
    result down: location name, coordinates and records stay as they
    were, no fetch is made and the location-not-found warning is
    shown. *)
Theorem equator_submission_rejected :
  geocode_response short_decimal
    (nominatim net_up (user_input (submit "Mitad del Mundo")))
  = Ok (Some (0%float, (-78.5)%float))
  /\ run short_decimal net_up (submit "Mitad del Mundo") loaded
     = (Ok [da_mario; unnamed], loaded,
        [HttpGet "Mitad del Mundo"; not_found_warning]).
Proof. vm_compute. split; reflexivity. Qed.

Lemma geocode_transport_failure_uncaught_witness :
  is_submission (submit "Seattle") = true
  /\ run short_decimal net_down (submit "Seattle") loaded
     = (Raise ConnectionError, loaded, [HttpGet "Seattle"]).
Proof.
  split; [reflexivity |].
  apply (geocode_transport_failure_uncaught short_decimal net_down
           (submit "Seattle") loaded); reflexivity.
Defined.

Lemma extract_cuisines_labels_witness :
  forallb cuisine_is_str [da_mario; unnamed] = true
  /\ exists labels : gset string,
       extract_cuisines [da_mario; unnamed] = Ok labels
       /\ ("" ∉ labels)
       /\ forall c, c ∈ labels -> Str.lower c <> "unknown cuisine".
Proof.
  split; [reflexivity |].
  destruct (extract_cuisines_labels [da_mario; unnamed] eq_refl)
    as (labels & Hlabels & _ & Hempty & Hsentinel & _).
  exists labels. repeat split; assumption.
Defined.

Example extract_two_records :
  extract_cuisines [da_mario; unnamed] = Ok {[ "Italian"; "Vegan" ]}.
Proof. vm_compute. reflexivity. Qed.

Lemma fetch_failure_caught_witness :
  fetch_body (overpass net_half default_radius
                (lat initial_state) (lon initial_state))
  = Raise ConnectionError
  /\ run short_decimal net_half first_load initial_state
     = (Ok [], initial_state,
        [HttpPost default_radius (lat initial_state) (lon initial_state);
         StError ConnectionError; no_cuisine_warning])
  /\ run short_decimal net_half (submit "Seattle") loaded
     = (Ok [],
        {| location_name := "Seattle"; lat := lat initial_state;
           lon := lon initial_state; zoom := zoom loaded;
           restaurants := [] |},
        [HttpGet "Seattle";
         HttpPost default_radius (lat initial_state) (lon initial_state);
         StError ConnectionError; no_cuisine_warning]).
Proof.
  destruct (fetch_failure_caught short_decimal net_half
              (lat initial_state) (lon initial_state) default_radius
              ConnectionError eq_refl)
    as (_ & _ & _ & _ & Hload & Hsubmit).
  split; [reflexivity |]. split.
  - apply Hload; reflexivity.
  - apply (Hsubmit (submit "Seattle") loaded); vm_compute; reflexivity.
Defined.

Lemma empty_session_refetches_witness :
  is_submission first_load = false
  /\ restaurants initial_state = []
  /\ posts (trace (run short_decimal net_up first_load initial_state))
     = [HttpPost default_radius (lat initial_state) (lon initial_state)].
Proof.
  split; [reflexivity |]. split; [reflexivity |].
  destruct (empty_session_refetches short_decimal net_up first_load
              initial_state eq_refl) as (Hempty & _).
  apply Hempty. reflexivity.
Defined.

(** C9, as stated, fails: the first load with Overpass down leaves the
    session without records, and the next run, which carries no
    submission, sends the request to Overpass again. *)
Lemma failed_fetch_is_repeated :
  run short_decimal net_half first_load initial_state
  = (Ok [], initial_state,
     [HttpPost default_radius (lat initial_state) (lon initial_state);
      StError ConnectionError; no_cuisine_warning])
  /\ restaurants
       (final_state (run short_decimal net_half first_load initial_state))
     = []
  /\ is_submission first_load = false
  /\ trace
       (run short_decimal net_half first_load
          (final_state (run short_decimal net_half first_load initial_state)))
     = [HttpPost default_radius (lat initial_state) (lon initial_state);
        StError ConnectionError; no_cuisine_warning].
Proof. vm_compute. repeat split; reflexivity. Qed.

Lemma zero_coordinate_rejected_witness :
  is_submission (submit "Mitad del Mundo") = true
  /\ update_location short_decimal net_up (submit "Mitad del Mundo") loaded
     = (Ok tt, loaded, [HttpGet "Mitad del Mundo"; not_found_warning]).
Proof.
  split; [reflexivity |].
  refine (proj1 (zero_coordinate_rejected short_decimal net_up
                   (submit "Mitad del Mundo") loaded 0%float (-78.5)%float
                   eq_refl _ (or_introl eq_refl))).
  vm_compute. reflexivity.
Defined.

(** * Further properties of the script *)

(** ** The geocoder *)

Section Geocoder.

Variable str_to_float : string -> option float.

(** The geocoder returns a pair exactly for a 200 response whose body is
    a list that starts with a mapping holding [lat] and [lon] that
    [float] converts; what follows the first candidate plays no part. *)
Theorem geocode_response_some_iff (geo_res : http_outcome) (la lo : float) :
  geocode_response str_to_float geo_res = Ok (Some (la, lo))
  <-> exists items rest lat_s lon_s,
        geo_res = Response 200 (Some (PyList (PyDict items :: rest)))
        /\ lookup_key "lat" items = Some lat_s
        /\ lookup_key "lon" items = Some lon_s
        /\ py_float str_to_float lat_s = Ok la
        /\ py_float str_to_float lon_s = Ok lo.
Proof.
  split.
  - destruct geo_res as [|code [body|]]; simpl; try discriminate;
      destruct (Z.eqb_spec code 200) as [->|Hne]; try discriminate.
    simpl. destruct (truthy body) eqn:Hbody; [| discriminate].
    destruct body as [| | | |s|[|first rest]|items]; simpl;
      try discriminate; [destruct s; discriminate |].
    destruct first as [| | | | | |items]; simpl; try discriminate.
    destruct (lookup_key "lat" items) as [lat_s|] eqn:Hlat;
      [| discriminate]. simpl.
    destruct (py_float str_to_float lat_s) as [la'|] eqn:Hla;
      [| discriminate]. simpl.
    destruct (lookup_key "lon" items) as [lon_s|] eqn:Hlon;
      [| discriminate]. simpl.
    destruct (py_float str_to_float lon_s) as [lo'|] eqn:Hlo;
      [| discriminate]. simpl.
    intros H. inversion H. subst. now exists items, rest, lat_s, lon_s.
  - intros (items & rest & lat_s & lon_s & -> & Hlat & Hlon & Hla & Hlo).
    simpl. now rewrite Hlat; simpl; rewrite Hla; simpl; rewrite Hlon; simpl;
      rewrite Hlo.
Qed.

(** The geocoder returns the not-found pair exactly for a status other
    than 200, whose body it does not read, or a 200 response whose body
    is falsy. *)
Theorem geocode_response_none_iff (geo_res : http_outcome) :
  geocode_response str_to_float geo_res = Ok None
  <-> exists code body,
        geo_res = Response code body
        /\ (code <> 200%Z
            \/ exists v, body = Some v /\ truthy v = false).
Proof.
  split.
  - destruct geo_res as [|code body]; simpl; [discriminate |].
    destruct (Z.eqb_spec code 200) as [->|Hne].
    + destruct body as [v|]; simpl; [| discriminate].
      destruct (truthy v) eqn:Hv.
      * destruct (py_first v) as [first|]; simpl; [| discriminate].
        destruct (py_getitem first "lat") as [x|]; simpl; [| discriminate].
        destruct (py_float str_to_float x); simpl; [| discriminate].
        destruct (py_getitem first "lon") as [y|]; simpl; [| discriminate].
        destruct (py_float str_to_float y); simpl; discriminate.
      * intros _. exists 200%Z, (Some v). split; [reflexivity |].
        right. now exists v.
    + intros _. exists code, body. split; [reflexivity | now left].
  - intros (code & body & -> & Hcase). simpl.
    destruct (Z.eqb_spec code 200) as [->|Hne]; [| reflexivity].
    destruct Hcase as [Hne | (v & -> & Hv)]; [contradiction |].
    simpl. now rewrite Hv.
Qed.

End Geocoder.

(** ** Normalization and fetch, continued *)

(** The record of a well-formed element, in closed form. *)
Lemma normalize_element_closed (element : pyval) :
  well_formed element = true ->
  normalize_element element
  = Ok {| r_name := tag_or element "name" "Unnamed";
          r_lat := element_field element "lat";
          r_lon := element_field element "lon";
          r_address := Str.join ", " (present_fields element);
          r_cuisine := tag_or element "cuisine" "Unknown cuisine" |}.
Proof.
  unfold well_formed, normalize_element, present_fields, address_field,
    tag_or, tag, element_tags, element_field.
  destruct element as [| | | | | |items]; try discriminate.
  rewrite py_get_dict.
  destruct (lookup_key "tags" items) as [[| | | | | |tags]|];
    try discriminate;
    repeat (cbn [result_bind get_or]; rewrite py_get_dict);
    cbn [result_bind get_or].
  - intros Hwf. simpl in Hwf. rewrite !andb_true_iff in Hwf.
    destruct Hwf as (Hh & Hs & Hc & Hp & _). simpl.
    destruct (lookup_key "name" tags), (lookup_key "cuisine" tags);
      case_address_tag tags "addr:street";
      case_address_tag tags "addr:housenumber";
      case_address_tag tags "addr:city";
      case_address_tag tags "addr:postcode";
      reflexivity.
  - intros _. reflexivity.
Qed.

Lemma normalize_loop_app (elements : list pyval) (done new : list restaurant) :
  Forall2 (fun e r => normalize_element e = Ok r) elements new ->
  normalize_loop elements done = Ok (done ++ new).
Proof.
  intros Hall. revert done.
  induction Hall as [|e r elements new He _ IH]; intros done; simpl.
  - now rewrite app_nil_r.
  - rewrite He. simpl. rewrite IH. now rewrite <- app_assoc.
Qed.

Lemma normalize_loop_stops (elements : list pyval) (done : list restaurant)
    (e : pyval) (x : exn) :
  In e elements -> normalize_element e = Raise x ->
  exists err, normalize_loop elements done = Raise err.
Proof.
  revert done. induction elements as [|e' elements IH]; intros done Hin He;
    simpl in *; [contradiction |].
  destruct (normalize_element e') as [r|err] eqn:He'; simpl.
  - destruct Hin as [-> | Hin]; [congruence | now apply IH].
  - now exists err.
Qed.

(** Well-formed elements are all normalized: the loop returns one record
    per element, the record at each position being that of the element
    at the same position. *)
Theorem normalize_loop_well_formed (elements : list pyval) :
  forallb well_formed elements = true ->
  exists rs,
    normalize_loop elements [] = Ok rs
    /\ length rs = length elements
    /\ Forall2 (fun e r => normalize_element e = Ok r) elements rs.
Proof.
  intros Hwf.
  assert (Hall : exists rs,
             Forall2 (fun e r => normalize_element e = Ok r) elements rs).
  { induction elements as [|e elements IH]; [exists []; constructor |].
    simpl in Hwf. apply andb_true_iff in Hwf as [He Hwf].
    destruct (IH Hwf) as (rs & Hrs).
    eexists (_ :: rs). constructor; [| exact Hrs].
    now apply normalize_element_closed. }
  destruct Hall as (rs & Hall). exists rs. split; [| split].
  - now rewrite (normalize_loop_app elements [] rs).
  - symmetry. exact (Forall2_length _ _ _ Hall).
  - exact Hall.
Qed.

Lemma normalize_loop_well_formed_witness :
  forallb well_formed [full_element; bare_element] = true
  /\ exists rs,
       normalize_loop [full_element; bare_element] [] = Ok rs
       /\ length rs = 2%nat.
Proof.
  split; [reflexivity |].
  destruct (normalize_loop_well_formed [full_element; bare_element] eq_refl)
    as (rs & Hrs & Hlen & _).
  exists rs. split; assumption.
Defined.

(** One element that cannot be normalized costs the whole answer: the
    fetch returns the empty list and reports an error, whatever the other
    elements are. *)
Theorem fetch_all_or_nothing (net : network) (la lo : float) (radius : Z)
    (st : session_state) (code : Z) (data : list (string * pyval))
    (elements : list pyval) (e : pyval) (x : exn) :
  overpass net radius la lo = Response code (Some (PyDict data)) ->
  lookup_key "elements" data = Some (PyList elements) ->
  In e elements -> normalize_element e = Raise x ->
  exists err,
    fetch_nearby_restaurants net la lo radius st
    = (Ok [], st, [HttpPost radius la lo; StError err]).
Proof.
  intros Hnet Hdata Hin He.
  destruct (normalize_loop_stops elements [] e x Hin He) as (err & Hloop).
  exists err. rewrite fetch_nearby_restaurants_total.
  unfold fetched, fetch_report. rewrite Hnet. simpl. rewrite Hdata. simpl.
  now rewrite Hloop.
Qed.

Lemma fetch_all_or_nothing_witness :
  In (PyStr "node") [full_element; PyStr "node"]
  /\ exists err,
       fetch_nearby_restaurants
         {| nominatim := fun _ => TransportFailure;
            overpass := fun _ _ _ =>
              Response 200
                (Some (PyDict [("elements",
                                PyList [full_element; PyStr "node"])])) |}
         1%float 2%float 7500 initial_state
       = (Ok [], initial_state,
          [HttpPost 7500 1%float 2%float; StError err]).
Proof.
  split; [simpl; tauto |].
  apply (fetch_all_or_nothing _ 1%float 2%float 7500 initial_state 200
           [("elements", PyList [full_element; PyStr "node"])]
           [full_element; PyStr "node"] (PyStr "node") AttributeError);
    try reflexivity.
  simpl. tauto.
Defined.

Lemma join_empty (sep : string) (parts : list string) :
  Forall (fun p => p <> "") parts -> Str.join sep parts = "" -> parts = [].
Proof.
  intros Hall. destruct Hall as [|p parts Hp Hall]; [reflexivity |].
  simpl. destruct p as [|c p]; [contradiction |].
  destruct parts; discriminate.
Qed.

Lemma present_fields_nonempty (element : pyval) :
  Forall (fun p => p <> "") (present_fields element).
Proof.
  unfold present_fields. apply List.Forall_forall. intros p Hin.
  apply in_flat_map in Hin as (k & _ & Hp). unfold address_field in Hp.
  destruct (tag element k) as [[| | | |[|c s]| |]|]; simpl in Hp;
    try contradiction.
  destruct Hp as [<- | []]. discriminate.
Qed.

(** The address of a well-formed element is empty exactly when none of
    its four address tags holds a non-empty string. *)
Theorem address_empty_iff (element : pyval) (r : restaurant) :
  well_formed element = true ->
  normalize_element element = Ok r ->
  (r_address r = "" <-> present_fields element = []).
Proof.
  intros Hwf Hr. rewrite (normalize_element_closed element Hwf) in Hr.
  inversion Hr. simpl. split.
  - apply join_empty, present_fields_nonempty.
  - now intros ->.
Qed.

Lemma address_empty_iff_witness :
  well_formed bare_element = true
  /\ (r_address unnamed = "" <-> present_fields bare_element = []).
Proof.
  split; [reflexivity |].
  apply (address_empty_iff bare_element unnamed); reflexivity.
Defined.

(** The cuisine field of a record is a string when the cuisine tag of
    its element is a string or missing. *)
Lemma normalize_element_cuisine (element : pyval) (r : restaurant) :
  normalize_element element = Ok r ->
  cuisine_is_str r = cuisine_tag_is_str element.
Proof.
  unfold normalize_element, cuisine_tag_is_str, cuisine_is_str, tag,
    element_tags.
  destruct element as [| | | | | |items]; try discriminate.
  rewrite py_get_dict. cbn [result_bind].
  destruct (lookup_key "tags" items) as [[| | | | | |tags]|];
    try discriminate; cbn [get_or].
  - rewrite !py_get_dict. cbn [result_bind].
    destruct (py_join _ _); [| discriminate]. cbn [result_bind].
    intros H. inversion H. simpl.
    now destruct (lookup_key "cuisine" tags).
  - rewrite !py_get_dict. cbn [result_bind].
    destruct (py_join _ _); [| discriminate]. cbn [result_bind].
    intros H. inversion H. reflexivity.
Qed.

Lemma forallb_app_true {A : Type} (f : A -> bool) (l1 l2 : list A) :
  forallb f (l1 ++ l2) = true <-> forallb f l1 = true /\ forallb f l2 = true.
Proof. rewrite forallb_app. apply andb_true_iff. Qed.

Lemma normalize_loop_cuisine (elements : list pyval)
    (done rs : list restaurant) :
  normalize_loop elements done = Ok rs ->
  forallb cuisine_tag_is_str elements = true ->
  forallb cuisine_is_str done = true ->
  forallb cuisine_is_str rs = true.
Proof.
  revert done. induction elements as [|e elements IH]; intros done; simpl.
  - intros H _ Hdone. now inversion H; subst.
  - destruct (normalize_element e) as [r|] eqn:He; [| discriminate]. simpl.
    intros H Hall Hdone. apply andb_true_iff in Hall as [Htag Hall].
    apply (IH (done ++ [r])); try assumption.
    apply forallb_app_true. split; [assumption |]. simpl.
    now rewrite (normalize_element_cuisine e r He), Htag.
Qed.

(** ** The cuisine labels, continued *)

Lemma occurs_app (d : ascii) (a b : string) :
  occurs d (a ++ b)%string = occurs d a || occurs d b.
Proof.
  induction a as [|c a IH]; [reflexivity |].
  rewrite append_cons. simpl. now rewrite IH, orb_assoc.
Qed.

Lemma occurs_replace (a b : ascii) (s : string) :
  a <> b -> occurs a (Str.replace a b s) = false.
Proof.
  intros Hne. induction s as [|c s IH]; simpl; [reflexivity |].
  rewrite IH, orb_false_r.
  destruct (Ascii.eqb_spec c a) as [->|Hc]; now apply Ascii.eqb_neq.
Qed.

Lemma split_head_prefix (sep : ascii) (s p : string) (ps : list string) :
  Str.split sep s = p :: ps -> exists post, s = (p ++ post)%string.
Proof.
  revert p ps. induction s as [|c s IH]; intros p ps; simpl.
  - intros H. inversion H. now exists "".
  - destruct (Ascii.eqb c sep).
    + intros H. inversion H. now exists (String c s).
    + destruct (Str.split sep s) as [|q qs] eqn:Hs.
      * intros H. inversion H. now apply split_not_nil in Hs.
      * destruct (IH q qs eq_refl) as (post & ->).
        intros H. inversion H. now exists post.
Qed.

(** Each part of a split string occurs in it. *)
Lemma split_part_substring (sep : ascii) (s p : string) :
  In p (Str.split sep s) -> is_substring p s.
Proof.
  revert p. induction s as [|c s IH]; intros p; simpl.
  - intros [<- | []]. now exists "", "".
  - destruct (Ascii.eqb c sep).
    + intros [<- | Hin].
      * now exists "", (String c s).
      * destruct (IH p Hin) as (pre & post & ->).
        now exists (String c pre), post.
    + destruct (Str.split sep s) as [|q qs] eqn:Hs.
      * intros [<- | []]. now apply split_not_nil in Hs.
      * intros [<- | Hin].
        -- destruct (split_head_prefix sep s q qs Hs) as (post & ->).
           now exists "", post.
        -- destruct (IH p (or_intror Hin)) as (pre & post & ->).
           now exists (String c pre), post.
Qed.

Lemma append_assoc (a b c : string) :
  ((a ++ b) ++ c)%string = (a ++ b ++ c)%string.
Proof.
  induction a as [|x a IH]; [reflexivity |].
  now rewrite !append_cons, IH.
Qed.

Lemma is_substring_trans (a b c : string) :
  is_substring a b -> is_substring b c -> is_substring a c.
Proof.
  intros (p1 & q1 & ->) (p2 & q2 & ->).
  exists (p2 ++ p1)%string, (q1 ++ q2)%string.
  now rewrite !append_assoc.
Qed.

Lemma occurs_substring (d : ascii) (a b : string) :
  is_substring a b -> occurs d b = false -> occurs d a = false.
Proof.
  intros (pre & post & ->). rewrite !occurs_app.
  intros H. apply orb_false_iff in H as [_ H].
  now apply orb_false_iff in H as [H _].
Qed.

Lemma strip_substring (s : string) : is_substring (Str.strip s) s.
Proof.
  destruct (strip_spec s) as (l & r & Hs & _). now exists l, r.
Qed.

Lemma lower_app (a b : string) :
  Str.lower (a ++ b) = (Str.lower a ++ Str.lower b)%string.
Proof.
  induction a as [|c a IH]; [reflexivity |].
  rewrite !append_cons. simpl. now rewrite IH.
Qed.

Lemma lower_substring (a b : string) :
  is_substring a b -> is_substring (Str.lower a) (Str.lower b).
Proof.
  intros (pre & post & ->). exists (Str.lower pre), (Str.lower post).
  now rewrite !lower_app.
Qed.

Lemma replace_app_inv (a b : ascii) (s x y : string) :
  Str.replace a b s = (x ++ y)%string ->
  exists sx sy, s = (sx ++ sy)%string
                /\ Str.replace a b sx = x /\ Str.replace a b sy = y.
Proof.
  revert s. induction x as [|c x IH]; intros s.
  - rewrite append_empty. intros H. now exists "", s.
  - rewrite append_cons. destruct s as [|d s]; simpl; [discriminate |].
    intros H. inversion H as [[Hc Hx]].
    destruct (IH s Hx) as (sx & sy & -> & Hsx & Hsy).
    exists (String d sx), sy. simpl. now rewrite Hsx, Hsy.
Qed.

(** A string without [b] that comes out of the replacement went in
    unchanged. *)
Lemma replace_fixed (a b : ascii) (s c : string) :
  Str.replace a b s = c -> occurs b c = false -> s = c.
Proof.
  revert c. induction s as [|d s IH]; intros c; simpl.
  - now intros <-.
  - intros <-. simpl. intros H. apply orb_false_iff in H as [Hd Hs].
    rewrite (IH _ eq_refl Hs) at 1.
    destruct (Ascii.eqb_spec d a) as [->|Hne]; [| reflexivity].
    now rewrite Ascii.eqb_refl in Hd.
Qed.

Lemma replace_substring_back (a b : ascii) (s c : string) :
  is_substring c (Str.replace a b s) -> occurs b c = false ->
  is_substring c s.
Proof.
  intros (pre & post & H) Hc.
  apply replace_app_inv in H as (spre & srest & -> & _ & H).
  apply replace_app_inv in H as (sc & spost & -> & H & _).
  apply replace_fixed in H as ->; [| assumption].
  now exists spre, spost.
Qed.

(** A label is free of separators and of white space at its ends. *)
Lemma label_of_clean (c raw : string) :
  label_of c raw ->
  c <> "" /\ occurs "," c = false /\ occurs ";" c = false
  /\ starts_with_space c = false /\ ends_with_space c = false.
Proof.
  intros (part & Hin & -> & Hne & _).
  pose proof (split_parts_free _ _ _ Hin) as Hcomma.
  pose proof (split_part_substring _ _ _ Hin) as Hsub.
  pose proof (occurs_substring ";" _ _ Hsub
                (occurs_replace ";" "," raw ltac:(discriminate))) as Hsemi.
  destruct (strip_spec part) as (l & r & _ & _ & _ & Hstart & Hend).
  repeat split; try assumption.
  - exact (occurs_substring "," _ _ (strip_substring part) Hcomma).
  - exact (occurs_substring ";" _ _ (strip_substring part) Hsemi).
Qed.

(** A label occurs in its raw field, letter case set aside. *)
Lemma label_of_substring (c raw : string) :
  label_of c raw -> is_substring (Str.lower c) (Str.lower raw).
Proof.
  intros Hlabel. destruct (label_of_clean c raw Hlabel) as (_ & Hcomma & _).
  destruct Hlabel as (part & Hin & -> & _).
  apply lower_substring.
  apply (replace_substring_back ";" ","); [| assumption].
  apply (is_substring_trans _ part); [apply strip_substring |].
  now apply split_part_substring in Hin.
Qed.

(** When the extractor returns, every cuisine field was a string and the
    set holds the labels of the fields. *)
Lemma extract_cuisines_ok (rs : list restaurant) (labels : gset string) :
  extract_cuisines rs = Ok labels ->
  forallb cuisine_is_str rs = true
  /\ forall c, c ∈ labels
       <-> exists r raw, In r rs /\ r_cuisine r = PyStr raw
                         /\ label_of c raw.
Proof.
  unfold extract_cuisines. intros Hok.
  destruct (forallb cuisine_is_str rs) eqn:Hrs.
  - split; [reflexivity |].
    destruct (cuisine_loop_elem rs ∅ Hrs) as (labels' & Hloop & Hlabels).
    rewrite Hloop in Hok. inversion Hok. subst. intros c.
    rewrite Hlabels. split; [| now right].
    intros [H | H]; [| assumption]. now apply not_elem_of_empty in H.
  - now rewrite (cuisine_loop_raises rs ∅ Hrs) in Hok.
Qed.

(** No label is empty, holds a comma or a semicolon, or starts or ends
    with white space. *)
Theorem labels_are_clean (rs : list restaurant) (labels : gset string)
    (c : string) :
  extract_cuisines rs = Ok labels ->
  c ∈ labels ->
  c <> "" /\ occurs "," c = false /\ occurs ";" c = false
  /\ starts_with_space c = false /\ ends_with_space c = false.
Proof.
  intros Hok Hc. apply extract_cuisines_ok in Hok as [_ Hlabels].
  apply Hlabels in Hc as (r & raw & _ & _ & Hlabel).
  now apply (label_of_clean c raw).
Qed.

Lemma labels_are_clean_witness :
  extract_cuisines [da_mario; unnamed] = Ok {[ "Italian"; "Vegan" ]}
  /\ occurs ";" "Vegan" = false /\ starts_with_space "Vegan" = false.
Proof.
  assert (Hok : extract_cuisines [da_mario; unnamed]
                = Ok ({[ "Italian"; "Vegan" ]} : gset string))
    by (vm_compute; reflexivity).
  split; [exact Hok |].
  assert (Hin : "Vegan" ∈ ({[ "Italian"; "Vegan" ]} : gset string))
    by (apply elem_of_union_r, elem_of_singleton; reflexivity).
  destruct (labels_are_clean [da_mario; unnamed] {[ "Italian"; "Vegan" ]}
              "Vegan" Hok Hin)
    as (_ & _ & Hsemi & Hstart & _).
  now split.
Defined.

Lemma extract_cuisines_raises (rs : list restaurant) :
  forallb cuisine_is_str rs = false ->
  extract_cuisines rs = Raise AttributeError.
Proof. apply cuisine_loop_raises. Qed.

Lemma extract_cuisines_returns (rs : list restaurant) :
  forallb cuisine_is_str rs = true ->
  exists labels, extract_cuisines rs = Ok labels.
Proof.
  intros Hrs. destruct (cuisine_loop_elem rs ∅ Hrs) as (labels & Hloop & _).
  now exists labels.
Qed.

(** The labels of two sequences of records put end to end are the union
    of the labels of each; the extractor raises on the whole when it
    raises on a part. *)
Theorem extract_cuisines_app (rs1 rs2 : list restaurant) :
  extract_cuisines (rs1 ++ rs2)
  = (let? a := extract_cuisines rs1 in
     let? b := extract_cuisines rs2 in
     Ok (a ∪ b)).
Proof.
  destruct (forallb cuisine_is_str rs1) eqn:H1.
  - destruct (forallb cuisine_is_str rs2) eqn:H2.
    + destruct (extract_cuisines_returns rs1 H1) as (a & Ha).
      destruct (extract_cuisines_returns rs2 H2) as (b & Hb).
      destruct (extract_cuisines_returns (rs1 ++ rs2)) as (c & Hc).
      { apply forallb_app_true. now split. }
      rewrite Ha, Hb, Hc. simpl. f_equal.
      apply extract_cuisines_ok in Ha as [_ Ha].
      apply extract_cuisines_ok in Hb as [_ Hb].
      apply extract_cuisines_ok in Hc as [_ Hc].
      apply set_eq. intros x.
      rewrite elem_of_union, Ha, Hb, Hc. split.
      * intros (r & raw & Hin & Hr & Hl). apply in_app_or in Hin as [Hin|Hin];
          [left | right]; now exists r, raw.
      * intros [(r & raw & Hin & Hr & Hl) | (r & raw & Hin & Hr & Hl)];
          exists r, raw; (split; [apply in_or_app; tauto | now split]).
    + destruct (extract_cuisines_returns rs1 H1) as (a & Ha).
      rewrite Ha, (extract_cuisines_raises rs2 H2). simpl.
      apply extract_cuisines_raises. now rewrite forallb_app, H1, H2.
  - rewrite (extract_cuisines_raises rs1 H1). simpl.
    apply extract_cuisines_raises. now rewrite forallb_app, H1.
Qed.

Lemma forallb_Permutation {A : Type} (f : A -> bool) (l1 l2 : list A) :
  Permutation l1 l2 -> forallb f l1 = forallb f l2.
Proof.
  induction 1 as [|x l1 l2 _ IH|x y l|l1 l2 l3 _ IH1 _ IH2]; simpl.
  - reflexivity.
  - now rewrite IH.
  - now rewrite !andb_assoc, (andb_comm (f y)).
  - now rewrite IH1.
Qed.

(** The order of the records does not matter to the extractor. *)
Theorem extract_cuisines_Permutation (rs1 rs2 : list restaurant) :
  Permutation rs1 rs2 ->
  extract_cuisines rs1 = extract_cuisines rs2.
Proof.
  intros Hperm.
  pose proof (forallb_Permutation cuisine_is_str rs1 rs2 Hperm) as Hstr.
  destruct (forallb cuisine_is_str rs1) eqn:H1; symmetry in Hstr.
  - destruct (extract_cuisines_returns rs1 H1) as (a & Ha).
    destruct (extract_cuisines_returns rs2 Hstr) as (b & Hb).
    rewrite Ha, Hb. f_equal.
    apply extract_cuisines_ok in Ha as [_ Ha].
    apply extract_cuisines_ok in Hb as [_ Hb].
    apply set_eq. intros x. rewrite Ha, Hb.
    split; intros (r & raw & Hin & Hr & Hl); exists r, raw;
      (split; [| now split]).
    + now apply (Permutation_in r Hperm).
    + now apply (Permutation_in r (Permutation_sym Hperm)).
  - now rewrite (extract_cuisines_raises rs1 H1),
      (extract_cuisines_raises rs2 Hstr).
Qed.

Lemma extract_cuisines_Permutation_witness :
  Permutation [da_mario; unnamed] [unnamed; da_mario]
  /\ extract_cuisines [da_mario; unnamed]
     = extract_cuisines [unnamed; da_mario].
Proof.
  split; [apply perm_swap |].
  apply (extract_cuisines_Permutation [da_mario; unnamed] [unnamed; da_mario]).
  apply perm_swap.
Defined.

Lemma filter_keeps_nonempty (selection : string) (rs : list restaurant)
    (r : restaurant) :
  In r rs -> keeps selection r = true ->
  List.filter (keeps selection) rs <> [].
Proof.
  intros Hin Hkeep Hnil.
  assert (Hr : In r (List.filter (keeps selection) rs))
    by (apply filter_In; now split).
  now rewrite Hnil in Hr.
Qed.

(** A label the extractor found, when selected, keeps at least one
    record: a record from whose raw cuisine field the label was cut. *)
Theorem label_selection_keeps_a_record (rs : list restaurant)
    (labels : gset string) (c : string) :
  extract_cuisines rs = Ok labels ->
  c ∈ labels ->
  exists r out,
    filter_restaurants c rs = Ok out
    /\ In r out
    /\ exists raw, r_cuisine r = PyStr raw /\ label_of c raw.
Proof.
  intros Hok Hc. apply extract_cuisines_ok in Hok as [Hstr Hlabels].
  apply Hlabels in Hc as (r & raw & Hin & Hr & Hlabel).
  exists r. unfold filter_restaurants.
  destruct (String.eqb c "All cuisines"); simpl.
  - exists rs. split; [reflexivity |]. split; [assumption | now exists raw].
  - exists (List.filter (keeps c) rs).
    split; [now rewrite comprehension_filter |].
    split; [| now exists raw].
    apply filter_In. split; [assumption |].
    apply keeps_iff. exists raw. split; [assumption |].
    now apply label_of_substring.
Qed.

Lemma label_selection_keeps_a_record_witness :
  extract_cuisines [da_mario; unnamed] = Ok {[ "Italian"; "Vegan" ]}
  /\ exists r out,
       filter_restaurants "Vegan" [da_mario; unnamed] = Ok out /\ In r out.
Proof.
  assert (Hok : extract_cuisines [da_mario; unnamed]
                = Ok ({[ "Italian"; "Vegan" ]} : gset string))
    by (vm_compute; reflexivity).
  split; [exact Hok |].
  assert (Hin : "Vegan" ∈ ({[ "Italian"; "Vegan" ]} : gset string))
    by (apply elem_of_union_r, elem_of_singleton; reflexivity).
  destruct (label_selection_keeps_a_record [da_mario; unnamed]
              {[ "Italian"; "Vegan" ]} "Vegan" Hok Hin)
    as (r & out & Hout & Hr & _).
  now exists r, out.
Defined.

(** ** The options of the select box *)

Lemma ascii_compare_trans_le (x y z : ascii) :
  Ascii.compare x y <> Gt -> Ascii.compare y z <> Gt ->
  Ascii.compare x z <> Gt
  /\ (Ascii.compare x z = Eq ->
      Ascii.compare x y = Eq /\ Ascii.compare y z = Eq).
Proof.
  unfold Ascii.compare.
  destruct (N.compare_spec (N_of_ascii x) (N_of_ascii y)) as [Hxy|Hxy|Hxy];
    destruct (N.compare_spec (N_of_ascii y) (N_of_ascii z)) as [Hyz|Hyz|Hyz];
    destruct (N.compare_spec (N_of_ascii x) (N_of_ascii z)) as [Hxz|Hxz|Hxz];
    intros H1 H2; try congruence;
    (split;
     [first [discriminate | exfalso; lia]
     | intros E; try discriminate E;
       first [split; reflexivity | exfalso; lia]]).
Qed.

Lemma str_le_trans (a b c : string) :
  str_le a b -> str_le b c -> str_le a c.
Proof.
  unfold str_le, String.leb. revert b c.
  induction a as [|x a IH]; intros [|y b] [|z c]; simpl; try congruence.
  intros Hab Hbc.
  assert (Hxy : Ascii.compare x y <> Gt)
    by (destruct (Ascii.compare x y); congruence).
  assert (Hyz : Ascii.compare y z <> Gt)
    by (destruct (Ascii.compare y z); congruence).
  destruct (ascii_compare_trans_le x y z Hxy Hyz) as [Hxz Heq].
  destruct (Ascii.compare x z) eqn:Exz; try congruence.
  destruct (Heq eq_refl) as [Exy Eyz]. rewrite Exy in Hab.
  rewrite Eyz in Hbc. now apply (IH b c).
Qed.

#[local] Instance str_le_total : Total str_le.
Proof. intros a b. apply String.leb_total. Qed.

#[local] Instance str_le_transitive : Transitive str_le.
Proof. intros a b c. apply str_le_trans. Qed.

#[local] Instance str_le_antisymm : AntiSymm (=) str_le.
Proof. intros a b. apply String.leb_antisym. Qed.

(** The options are "All cuisines" followed by the labels, each once, in
    ascending order; the labels admit no other ascending arrangement. *)
Theorem cuisine_options_sorted (cuisines : gset string) :
  exists tail,
    cuisine_options cuisines = "All cuisines" :: tail
    /\ StronglySorted str_le tail
    /\ NoDup tail
    /\ (forall c, c ∈ tail <-> c ∈ cuisines)
    /\ length tail = size cuisines
    /\ forall l, Sorted str_le l -> Permutation l (elements cuisines) ->
                 l = tail.
Proof.
  exists (py_sorted (elements cuisines)). unfold cuisine_options, py_sorted.
  pose proof (merge_sort_Permutation str_le (elements cuisines)) as Hperm.
  split; [reflexivity |]. split; [apply StronglySorted_merge_sort; apply _ |].
  split; [| split; [| split]].
  - rewrite Hperm. apply NoDup_elements.
  - intros c. rewrite Hperm. apply elem_of_elements.
  - now rewrite Hperm.
  - intros l Hl Hl'. apply (Sorted_unique str_le); try assumption.
    + apply Sorted_merge_sort. apply _.
    + now rewrite Hperm.
Qed.

Example cuisine_options_example :
  cuisine_options {[ "vegan"; "Pizza"; "italian"; "Italian" ]}
  = ["All cuisines"; "Italian"; "Pizza"; "italian"; "vegan"].
Proof. vm_compute. reflexivity. Qed.

(** ** The cuisine filter, continued *)

Lemma comprehension_lower (a b : string) (rs kept : list restaurant) :
  Str.lower a = Str.lower b ->
  comprehension a rs kept = comprehension b rs kept.
Proof.
  intros Hab. revert kept. induction rs as [|r rs IH]; intros kept; simpl.
  - reflexivity.
  - unfold cuisine_matches. rewrite Hab.
    destruct (py_str (r_cuisine r)); simpl; [apply IH | reflexivity].
Qed.

(** Two selections that differ only in letter case, neither being the
    sentinel, give the same result. *)
Theorem filter_case_insensitive (a b : string) (rs : list restaurant) :
  a <> "All cuisines" -> b <> "All cuisines" ->
  Str.lower a = Str.lower b ->
  filter_restaurants a rs = filter_restaurants b rs.
Proof.
  intros Ha Hb Hab. unfold filter_restaurants.
  apply String.eqb_neq in Ha, Hb. rewrite Ha, Hb. simpl.
  now apply comprehension_lower.
Qed.

Lemma filter_case_insensitive_witness :
  Str.lower "VEGAN" = Str.lower "vegan"
  /\ filter_restaurants "VEGAN" [da_mario; unnamed]
     = filter_restaurants "vegan" [da_mario; unnamed].
Proof.
  split; [reflexivity |].
  apply (filter_case_insensitive "VEGAN" "vegan");
    [discriminate | discriminate | reflexivity].
Defined.

(** What the filter returns, whatever the selection is. *)
Lemma filter_restaurants_cases (selection : string) (rs : list restaurant) :
  filter_restaurants selection rs
  = if String.eqb selection "All cuisines" then Ok rs
    else if forallb cuisine_is_str rs
         then Ok (List.filter (keeps selection) rs)
         else Raise AttributeError.
Proof.
  unfold filter_restaurants.
  destruct (String.eqb selection "All cuisines"); simpl; [reflexivity |].
  destruct (forallb cuisine_is_str rs) eqn:Hrs.
  - now rewrite comprehension_filter.
  - now apply comprehension_raises.
Qed.

Lemma forallb_filter {A : Type} (f g : A -> bool) (l : list A) :
  forallb f l = true -> forallb f (List.filter g l) = true.
Proof.
  induction l as [|x l IH]; simpl; [reflexivity |].
  intros H. apply andb_true_iff in H as [Hx Hl].
  destruct (g x); simpl; [rewrite Hx |]; auto.
Qed.

Lemma filter_filter_same {A : Type} (g : A -> bool) (l : list A) :
  List.filter g (List.filter g l) = List.filter g l.
Proof.
  induction l as [|x l IH]; simpl; [reflexivity |].
  destruct (g x) eqn:Hx; simpl; [rewrite Hx, IH |]; auto.
Qed.

(** Filtering what the filter returned, with the same selection, changes
    nothing. *)
Theorem filter_idempotent (selection : string) (rs out : list restaurant) :
  filter_restaurants selection rs = Ok out ->
  filter_restaurants selection out = Ok out.
Proof.
  rewrite !filter_restaurants_cases.
  destruct (String.eqb selection "All cuisines"); [reflexivity |].
  destruct (forallb cuisine_is_str rs) eqn:Hrs; [| discriminate].
  intros H. inversion H. rewrite forallb_filter by assumption.
  now rewrite filter_filter_same.
Qed.

Lemma filter_idempotent_witness :
  filter_restaurants "vegan" [da_mario; unnamed] = Ok [da_mario]
  /\ filter_restaurants "vegan" [da_mario] = Ok [da_mario].
Proof.
  split; [reflexivity |].
  apply (filter_idempotent "vegan" [da_mario; unnamed]). reflexivity.
Defined.

(** A selection that contains another one, letter case set aside, keeps
    no record the other one drops. *)
Theorem filter_narrowing (a b : string) (rs outa outb : list restaurant)
    (r : restaurant) :
  a <> "All cuisines" -> b <> "All cuisines" ->
  is_substring (Str.lower a) (Str.lower b) ->
  filter_restaurants a rs = Ok outa ->
  filter_restaurants b rs = Ok outb ->
  In r outb -> In r outa.
Proof.
  intros Ha Hb Hsub. rewrite !filter_restaurants_cases.
  apply String.eqb_neq in Ha, Hb. rewrite Ha, Hb.
  destruct (forallb cuisine_is_str rs); [| discriminate].
  intros Houta Houtb. inversion Houta. inversion Houtb.
  rewrite !filter_In. intros [Hin Hkeep]. split; [assumption |].
  apply keeps_iff in Hkeep as (raw & Hraw & Hb').
  apply keeps_iff. exists raw. split; [assumption |].
  now apply (is_substring_trans _ (Str.lower b)).
Qed.

Lemma filter_narrowing_witness :
  is_substring (Str.lower "ital") (Str.lower "Italian")
  /\ filter_restaurants "ital" [da_mario; unnamed] = Ok [da_mario]
  /\ In da_mario [da_mario].
Proof.
  assert (Hsub : is_substring (Str.lower "ital") (Str.lower "Italian"))
    by (now exists "", "ian").
  split; [exact Hsub |]. split; [reflexivity |].
  apply (filter_narrowing "ital" "Italian" [da_mario; unnamed]
           [da_mario] [da_mario] da_mario);
    [discriminate | discriminate | exact Hsub | reflexivity | reflexivity
    | left; reflexivity].
Defined.

(** The filter works record by record: on two sequences put end to end
    it returns the two results put end to end, and it raises on the whole
    when it raises on a part. *)
Theorem filter_restaurants_app (selection : string)
    (rs1 rs2 : list restaurant) :
  filter_restaurants selection (rs1 ++ rs2)
  = (let? a := filter_restaurants selection rs1 in
     let? b := filter_restaurants selection rs2 in
     Ok (a ++ b)).
Proof.
  rewrite !filter_restaurants_cases.
  destruct (String.eqb selection "All cuisines"); [reflexivity |].
  rewrite forallb_app, List.filter_app.
  destruct (forallb cuisine_is_str rs1); simpl; [| reflexivity].
  now destruct (forallb cuisine_is_str rs2).
Qed.

(** ** Runs of the script *)

Section Runs.

Variable str_to_float : string -> option float.

Ltac case_filter :=
  match goal with
  | |- context [filter_restaurants ?a ?b] =>
      destruct (filter_restaurants a b)
  end.

(** The five ways through lines 80-95. *)
Lemma update_location_cases (net : network) (w : widgets)
    (st : session_state) :
  (is_submission w = true
   /\ exists la lo,
        geocode_response str_to_float (nominatim net (user_input w))
        = Ok (Some (la, lo))
        /\ lat_and_lon (Some (la, lo)) = true
        /\ update_location str_to_float net w st
           = (Ok tt,
              {| location_name := user_input w; lat := la; lon := lo;
                 zoom := zoom st;
                 restaurants := fetched (overpass net default_radius la lo) |},
              HttpGet (user_input w) :: HttpPost default_radius la lo
                :: fetch_report (overpass net default_radius la lo)))
  \/ (is_submission w = true
      /\ exists r,
           geocode_response str_to_float (nominatim net (user_input w)) = Ok r
           /\ lat_and_lon r = false
           /\ update_location str_to_float net w st
              = (Ok tt, st, [HttpGet (user_input w); not_found_warning]))
  \/ (is_submission w = true
      /\ exists e,
           geocode_response str_to_float (nominatim net (user_input w))
           = Raise e
           /\ update_location str_to_float net w st
              = (Raise e, st, [HttpGet (user_input w)]))
  \/ (is_submission w = false
      /\ restaurants st = []
      /\ update_location str_to_float net w st
         = (Ok tt,
            with_restaurants st
              (fetched (overpass net default_radius (lat st) (lon st))),
            HttpPost default_radius (lat st) (lon st)
              :: fetch_report (overpass net default_radius (lat st) (lon st))))
  \/ (is_submission w = false
      /\ restaurants st <> []
      /\ update_location str_to_float net w st = (Ok tt, st, [])).
Proof.
  destruct (is_submission w) eqn:Hsub.
  - destruct (geocode_response str_to_float (nominatim net (user_input w)))
      as [r|e] eqn:Hgeo.
    + destruct (lat_and_lon r) eqn:Htest.
      * left. split; [reflexivity |].
        destruct r as [[la lo]|]; [| discriminate]. exists la, lo.
        split; [reflexivity |]. split; [assumption |].
        now apply update_location_accepted.
      * right. left. split; [reflexivity |]. exists r.
        split; [reflexivity |]. split; [assumption |].
        now apply (update_location_rejected str_to_float net w st r).
    + right. right. left. split; [reflexivity |]. exists e.
      split; [reflexivity |]. now apply update_location_raises.
  - destruct (restaurants st) as [|r rs] eqn:Hrs.
    + right. right. right. left. split; [reflexivity |].
      split; [reflexivity |]. now apply update_location_refetch.
    + right. right. right. right. split; [reflexivity |].
      split; [discriminate |]. apply update_location_idle; [assumption |].
      now rewrite Hrs.
Qed.

(** The second half of a run shows at most the no-cuisine warning. *)
Lemma filter_by_cuisine_trace (w : widgets) (st : session_state) :
  trace (filter_by_cuisine w st) = []
  \/ trace (filter_by_cuisine w st) = [no_cuisine_warning].
Proof.
  unfold filter_by_cuisine, bind, get, lift, trace.
  destruct (extract_cuisines (restaurants st)) as [cuisines|e]; simpl;
    [| now left].
  destruct (decide (cuisines = ∅)); simpl.
  - now right.
  - now left.
Qed.

Lemma filter_by_cuisine_outcome (w : widgets) (st : session_state) :
  outcome (filter_by_cuisine w st)
  = (let? _ := extract_cuisines (restaurants st) in
     filter_restaurants (selected_cuisine w) (restaurants st)).
Proof.
  unfold filter_by_cuisine, bind, get, lift, outcome.
  destruct (extract_cuisines (restaurants st)) as [cuisines|e]; simpl;
    [| reflexivity].
  destruct (decide (cuisines = ∅)); simpl; now case_filter.
Qed.

(** A run without submission does not look at the text box: two such
    runs with the same selection are the same run.  In particular,
    pressing the button on an empty text box is no submission. *)
Theorem run_ignores_text_without_submission (net : network)
    (w w' : widgets) (st : session_state) :
  is_submission w = false -> is_submission w' = false ->
  selected_cuisine w = selected_cuisine w' ->
  run str_to_float net w st = run str_to_float net w' st.
Proof.
  intros Hw Hw' Hsel. unfold run, bind, update_location.
  unfold is_submission in Hw, Hw'. rewrite Hw, Hw'.
  unfold filter_by_cuisine. now rewrite Hsel.
Qed.

Lemma run_final_state (net : network) (w : widgets) (st : session_state) :
  final_state (run str_to_float net w st)
  = final_state (update_location str_to_float net w st).
Proof.
  rewrite run_steps.
  destruct (update_location str_to_float net w st) as [[[u|e] st1] t1];
    [| reflexivity].
  unfold final_state at 1 3. simpl. apply filter_by_cuisine_quiet.
Qed.

Lemma run_outcome (net : network) (w : widgets) (st : session_state) :
  outcome (run str_to_float net w st)
  = match outcome (update_location str_to_float net w st) with
    | Ok _ =>
        outcome (filter_by_cuisine w
                   (final_state (update_location str_to_float net w st)))
    | Raise e => Raise e
    end.
Proof.
  rewrite run_steps.
  now destruct (update_location str_to_float net w st) as [[[u|e] st1] t1].
Qed.

Lemma gets_fetch_report (response : http_outcome) :
  gets (fetch_report response) = [].
Proof. unfold fetch_report. now destruct (fetch_body response). Qed.

Lemma run_gets (net : network) (w : widgets) (st : session_state) :
  gets (trace (run str_to_float net w st))
  = gets (trace (update_location str_to_float net w st)).
Proof.
  rewrite run_steps.
  destruct (update_location str_to_float net w st) as [[[u|e] st1] t1];
    [| reflexivity].
  unfold trace at 1 3. simpl. unfold gets. rewrite List.filter_app.
  destruct (filter_by_cuisine_trace w st1) as [-> | ->]; simpl;
    now rewrite app_nil_r.
Qed.

Lemma run_posts (net : network) (w : widgets) (st : session_state) :
  posts (trace (run str_to_float net w st))
  = posts (trace (update_location str_to_float net w st)).
Proof.
  rewrite run_steps.
  destruct (update_location str_to_float net w st) as [[[u|e] st1] t1];
    [| reflexivity].
  unfold trace at 1 3. simpl. unfold posts. rewrite List.filter_app.
  destruct (filter_by_cuisine_trace w st1) as [-> | ->]; simpl;
    now rewrite app_nil_r.
Qed.

(** A run sends at most one request to each service; the request to
    Nominatim carries the text of the box, and none is sent without a
    submission. *)
Theorem run_requests_at_most_once (net : network) (w : widgets)
    (st : session_state) :
  (length (gets (trace (run str_to_float net w st))) <= 1)%nat
  /\ (length (posts (trace (run str_to_float net w st))) <= 1)%nat
  /\ (forall e, In e (gets (trace (run str_to_float net w st))) ->
                e = HttpGet (user_input w) /\ is_submission w = true).
Proof.
  rewrite run_gets, run_posts.
  destruct (update_location_cases net w st)
    as [(Hsub & la & lo & _ & _ & ->)
       |[(Hsub & r & _ & _ & ->)
        |[(Hsub & e & _ & ->)
         |[(Hsub & _ & ->)|(Hsub & _ & ->)]]]];
    unfold trace; cbn [snd].
  - change (gets (HttpGet (user_input w) :: HttpPost default_radius la lo
                    :: fetch_report (overpass net default_radius la lo)))
      with (HttpGet (user_input w)
              :: gets (fetch_report (overpass net default_radius la lo))).
    change (posts (HttpGet (user_input w) :: HttpPost default_radius la lo
                     :: fetch_report (overpass net default_radius la lo)))
      with (HttpPost default_radius la lo
              :: posts (fetch_report (overpass net default_radius la lo))).
    rewrite gets_fetch_report, posts_fetch_report. simpl.
    split; [lia |]. split; [lia |]. intros e' [<- | []]. now split.
  - simpl. split; [lia |]. split; [lia |]. intros e' [<- | []]. now split.
  - simpl. split; [lia |]. split; [lia |]. intros e' [<- | []]. now split.
  - change (gets (HttpPost default_radius (lat st) (lon st)
                    :: fetch_report
                         (overpass net default_radius (lat st) (lon st))))
      with (gets (fetch_report
                    (overpass net default_radius (lat st) (lon st)))).
    change (posts (HttpPost default_radius (lat st) (lon st)
                     :: fetch_report
                          (overpass net default_radius (lat st) (lon st))))
      with (HttpPost default_radius (lat st) (lon st)
              :: posts (fetch_report
                          (overpass net default_radius (lat st) (lon st)))).
    rewrite gets_fetch_report, posts_fetch_report. simpl.
    split; [lia |]. split; [lia |]. intros e' [].
  - simpl. split; [lia |]. split; [lia |]. intros e' [].
Qed.

(** A run either leaves the records of the session as they were, or
    replaces them by what one fetch, made at the coordinates the session
    ends with, returned. *)
Theorem run_records_come_from_fetch (net : network) (w : widgets)
    (st : session_state) :
  (restaurants (final_state (run str_to_float net w st)) = restaurants st
   /\ lat (final_state (run str_to_float net w st)) = lat st
   /\ lon (final_state (run str_to_float net w st)) = lon st
   /\ location_name (final_state (run str_to_float net w st))
      = location_name st)
  \/ (restaurants (final_state (run str_to_float net w st))
      = fetched (overpass net default_radius
                   (lat (final_state (run str_to_float net w st)))
                   (lon (final_state (run str_to_float net w st))))
      /\ posts (trace (run str_to_float net w st))
         = [HttpPost default_radius
              (lat (final_state (run str_to_float net w st)))
              (lon (final_state (run str_to_float net w st)))]).
Proof.
  rewrite run_final_state, run_posts.
  destruct (update_location_cases net w st)
    as [(Hsub & la & lo & _ & _ & ->)
       |[(Hsub & r & _ & _ & ->)
        |[(Hsub & e & _ & ->)
         |[(Hsub & _ & ->)|(Hsub & _ & ->)]]]];
    unfold final_state, trace; cbn [fst snd];
    try (left; repeat split; reflexivity).
  - right. cbn [restaurants lat lon]. split; [reflexivity |].
    change (posts (HttpGet (user_input w) :: HttpPost default_radius la lo
                     :: fetch_report (overpass net default_radius la lo)))
      with (HttpPost default_radius la lo
              :: posts (fetch_report (overpass net default_radius la lo))).
    now rewrite posts_fetch_report.
  - right. cbn [with_restaurants restaurants lat lon].
    split; [reflexivity |].
    change (posts (HttpPost default_radius (lat st) (lon st)
                     :: fetch_report
                          (overpass net default_radius (lat st) (lon st))))
      with (HttpPost default_radius (lat st) (lon st)
              :: posts (fetch_report
                          (overpass net default_radius (lat st) (lon st)))).
    now rewrite posts_fetch_report.
Qed.

(** What a run keeps: the zoom level; coordinates that are not zero; a
    location name that is not empty. *)
Lemma run_keeps (net : network) (w : widgets) (st : session_state) :
  zoom (final_state (run str_to_float net w st)) = zoom st
  /\ (coordinates_nonzero st = true ->
      coordinates_nonzero (final_state (run str_to_float net w st)) = true)
  /\ (location_name st <> "" ->
      location_name (final_state (run str_to_float net w st)) <> "").
Proof.
  rewrite run_final_state.
  destruct (update_location_cases net w st)
    as [(Hsub & la & lo & _ & Htest & ->)
       |[(Hsub & r & _ & _ & ->)
        |[(Hsub & e & _ & ->)
         |[(Hsub & _ & ->)|(Hsub & _ & ->)]]]];
    unfold final_state; cbn [fst snd]; try (repeat split; tauto).
  split; [reflexivity |]. split.
  - intros _. exact Htest.
  - intros _. cbn [location_name]. unfold is_submission in Hsub.
    apply andb_true_iff in Hsub as [_ Hsub]. now apply truthy_iff.
Qed.

(** Whatever the user does and the services answer, in a session that
    starts from the defaults the zoom level stays 12, neither coordinate
    is ever 0.0, and the location name is never empty. *)
Theorem runs_keep_zoom_and_coordinates (steps : list (network * widgets)) :
  zoom (runs str_to_float steps initial_state) = 12%Z
  /\ coordinates_nonzero (runs str_to_float steps initial_state) = true
  /\ location_name (runs str_to_float steps initial_state) <> "".
Proof.
  assert (Hinv : forall st,
             zoom st = 12%Z /\ coordinates_nonzero st = true
             /\ location_name st <> "" ->
             zoom (runs str_to_float steps st) = 12%Z
             /\ coordinates_nonzero (runs str_to_float steps st) = true
             /\ location_name (runs str_to_float steps st) <> "").
  { induction steps as [|[net w] steps IH]; intros st Hst; [exact Hst |].
    simpl. apply IH. destruct Hst as (Hzoom & Hcoord & Hname).
    destruct (run_keeps net w st) as (Hz & Hc & Hn).
    unfold final_state in Hz, Hc, Hn. rewrite Hz. auto. }
  apply Hinv. split; [reflexivity | split; [reflexivity | discriminate]].
Qed.


(** What a run hands to the map are records of the session, in their
    order: all of them for "All cuisines", else those the test keeps. *)
Theorem run_outcome_from_session (net : network) (w : widgets)
    (st : session_state) (out : list restaurant) :
  outcome (run str_to_float net w st) = Ok out ->
  out = if String.eqb (selected_cuisine w) "All cuisines"
        then restaurants (final_state (run str_to_float net w st))
        else List.filter (keeps (selected_cuisine w))
               (restaurants (final_state (run str_to_float net w st))).
Proof.
  rewrite run_final_state, run_outcome.
  destruct (outcome (update_location str_to_float net w st));
    [| discriminate].
  rewrite filter_by_cuisine_outcome, filter_restaurants_cases.
  destruct (extract_cuisines _) as [labels|]; [| discriminate]. simpl.
  destruct (String.eqb _ _); [congruence |].
  destruct (forallb _ _); [congruence | discriminate].
Qed.

(** The records of a fetch have string cuisine fields when the cuisine
    tags of the elements are strings or missing. *)
Theorem fetched_cuisine_typed (code : Z) (data : list (string * pyval))
    (elements : list pyval) :
  lookup_key "elements" data = Some (PyList elements) ->
  forallb cuisine_tag_is_str elements = true ->
  forallb cuisine_is_str (fetched (Response code (Some (PyDict data))))
  = true.
Proof.
  intros Hdata Htags. unfold fetched. simpl. rewrite Hdata. simpl.
  destruct (normalize_loop elements []) as [rs|] eqn:Hloop; [| reflexivity].
  now apply (normalize_loop_cuisine elements [] rs).
Qed.




End Runs.

(** ** Runs on concrete sessions *)

Lemma run_ignores_text_without_submission_witness :
  is_submission {| user_input := ""; submitted := true;
                   selected_cuisine := "Vegan" |} = false
  /\ run short_decimal net_up
       {| user_input := ""; submitted := true; selected_cuisine := "Vegan" |}
       loaded
     = run short_decimal net_up
         {| user_input := "Tacoma"; submitted := false;
            selected_cuisine := "Vegan" |}
         loaded.
Proof.
  split; [reflexivity |].
  apply (run_ignores_text_without_submission short_decimal net_up);
    reflexivity.
Defined.

Lemma run_outcome_from_session_witness :
  outcome (run short_decimal net_up
             {| user_input := ""; submitted := false;
                selected_cuisine := "Vegan" |} loaded)
  = Ok [da_mario]
  /\ [da_mario] = List.filter (keeps "Vegan") [da_mario; unnamed].
Proof.
  assert (Hout : outcome (run short_decimal net_up
                            {| user_input := ""; submitted := false;
                               selected_cuisine := "Vegan" |} loaded)
                 = Ok [da_mario]) by (vm_compute; reflexivity).
  split; [exact Hout |].
  exact (run_outcome_from_session short_decimal net_up _ loaded [da_mario]
           Hout).
Defined.

Lemma fetched_cuisine_typed_witness :
  forallb cuisine_tag_is_str [full_element; bare_element] = true
  /\ forallb cuisine_is_str (fetched two_restaurants) = true.
Proof.
  split; [reflexivity |].
  apply (fetched_cuisine_typed 200
           [("version", PyFloat 0.5%float);
            ("elements", PyList [full_element; bare_element])]
           [full_element; bare_element]); reflexivity.
Defined.


Lemma geocode_not_found_keeps_state_witness :
  is_submission (submit "xyzxyzxyz123") = true
  /\ update_location short_decimal net_up (submit "xyzxyzxyz123") loaded
     = (Ok tt, loaded, [HttpGet "xyzxyzxyz123"; not_found_warning])
  /\ final_state (run short_decimal net_up (submit "xyzxyzxyz123") loaded)
     = loaded
  /\ posts (trace (run short_decimal net_up (submit "xyzxyzxyz123") loaded))
     = [].
Proof.
  split; [reflexivity |].
  apply (geocode_not_found_keeps_state short_decimal net_up
           (submit "xyzxyzxyz123") loaded 200 (Some (PyList []))).
  - reflexivity.
  - reflexivity.
  - right. now exists (PyList []).
Defined.

Lemma accepted_submission_replaces_records_witness :
  is_submission (submit "Seattle") = true
  /\ final_state (run short_decimal net_half (submit "Seattle") loaded)
     = {| location_name := "Seattle"; lat := lat initial_state;
          lon := lon initial_state; zoom := 12; restaurants := [] |}
  /\ posts (trace (run short_decimal net_half (submit "Seattle") loaded))
     = [HttpPost default_radius (lat initial_state) (lon initial_state)].
Proof.
  split; [reflexivity |].
  apply (accepted_submission_replaces_records short_decimal net_half
           (submit "Seattle") loaded (lat initial_state) (lon initial_state));
    vm_compute; reflexivity.
Defined.

(** ** The session defaults *)

Lemma setdefault_union (k : string) (v : pyval) (s : gmap string pyval) :
  setdefault k v s = s ∪ {[ k := v ]}.
Proof.
  unfold setdefault. destruct (s !! k) as [x|] eqn:Hk.
  - apply map_eq. intros i. rewrite lookup_union.
    destruct (decide (i = k)) as [->|Hne].
    + now rewrite Hk, lookup_singleton_eq.
    + rewrite lookup_singleton_ne by congruence.
      now destruct (s !! i).
  - now apply insert_union_singleton_r.
Qed.

(** The setup at the top of the script fills in the defaults of the keys
    the session lacks and overwrites nothing; afterwards the five keys
    are present, and a second setup changes nothing. *)
Theorem session_setup_defaults (s : gmap string pyval) :
  session_setup s = s ∪ session_defaults
  /\ (forall k v, s !! k = Some v -> session_setup s !! k = Some v)
  /\ (forall k, k ∈ ["location_name"; "lat"; "lon"; "zoom"; "restaurants"] ->
                is_Some (session_setup s !! k))
  /\ session_setup (session_setup s) = session_setup s.
Proof.
  assert (Hunion : forall t, session_setup t = t ∪ session_defaults).
  { intros t. unfold session_setup, session_defaults.
    rewrite !setdefault_union, !insert_union_singleton_l.
    rewrite (right_id_L ∅ (∪)). now rewrite <- !(assoc_L (∪)). }
  split; [apply Hunion |]. split; [| split].
  - intros k v Hk. rewrite Hunion. now apply lookup_union_Some_l.
  - intros k Hk. rewrite Hunion, lookup_union.
    assert (Hdef : is_Some (session_defaults !! k)).
    { repeat (apply elem_of_cons in Hk as [-> | Hk];
              [vm_compute; eauto |]).
      now apply elem_of_nil in Hk. }
    destruct Hdef as [d Hd]. rewrite Hd. destruct (s !! k); eauto.
  - rewrite !Hunion. rewrite <- (assoc_L (∪)).
    now rewrite (idemp (∪) session_defaults).
Qed.

Example session_setup_fresh :
  session_setup ∅ = session_defaults
  /\ session_setup {[ "zoom" := PyInt 15 ]} !! "zoom" = Some (PyInt 15)
  /\ session_setup {[ "zoom" := PyInt 15 ]} !! "lat"
     = Some (PyFloat (lat initial_state)).
Proof.
  split; [| split]; vm_compute; reflexivity.
Qed.
